(** * Load-test sessions of the online-banking gateway: [locustfile.py]

    A shallow embedding of the Locust user classes of [locustfile.py]
    ([BaseUser], [BrowseUser], [ActiveUser], [HistoryUser]) and the
    properties of their response classification, authentication state and
    account cache.

    Conventions of the embedding.
    - A value decoded from a response body, and hence every value kept in
      [self.token], [self.user_id] and [self.accounts], is a [json] value;
      Python's [None] is [JNull].  Numbers are the integers; fractional
      numbers in response bodies are outside the model.  Characters are the
      ASCII code points, for which [Str.upper], [Str.lower] and [Str.repr]
      are Python's [str.upper], [str.lower] and [repr]; a statement that
      depends on them outside ASCII says so with [ascii_json].
    - A Python dict is an association list in insertion order; a lookup
      takes the first binding of a key (Python dicts have one binding per
      key).
    - Methods run in the monad [M]: they read and update the [world] (the
      session object, the random generator and the backend behind the HTTP
      client), may raise an exception, and emit one [event] per
      [with self.client...(catch_response=True) as response] block.
    - Calls to [logger] have no effect on the session and are left out,
      except where evaluating their arguments can raise (line 236). *)

From Stdlib Require Import ZArith QArith List String Ascii Bool Lia Lqa.
From Stdlib Require Import DecimalString.
Import ListNotations.
Local Open Scope string_scope.
Local Open Scope Z_scope.

(** ** Strings *)

Module Str.

Definition between (lo hi : N) (c : ascii) : bool :=
  (N.leb lo (N_of_ascii c) && N.leb (N_of_ascii c) hi)%bool.

(** [str.upper] and [str.lower], one character at a time. *)
Definition upper_char (c : ascii) : ascii :=
  if between 97 122 c then ascii_of_N (N_of_ascii c - 32) else c.

Definition lower_char (c : ascii) : ascii :=
  if between 65 90 c then ascii_of_N (N_of_ascii c + 32) else c.

Fixpoint map (f : ascii -> ascii) (s : string) : string :=
  match s with
  | EmptyString => EmptyString
  | String c t => String (f c) (map f t)
  end.

Definition upper : string -> string := map upper_char.
Definition lower : string -> string := map lower_char.

(** [needle in hay] on strings: [needle] occurs as a substring of [hay]. *)
Fixpoint contains (needle hay : string) : bool :=
  (prefix needle hay ||
   match hay with
   | EmptyString => false
   | String _ t => contains needle t
   end)%bool.

Definition is_empty (s : string) : bool :=
  match s with EmptyString => true | _ => false end.

Fixpoint mem (c : ascii) (s : string) : bool :=
  match s with
  | EmptyString => false
  | String d t => (Ascii.eqb c d || mem c t)%bool
  end.

(** [str(n)] for an integer. *)
Definition of_Z (n : Z) : string := NilZero.string_of_int (Z.to_int n).

Definition hex_digit (n : N) : ascii :=
  if N.ltb n 10 then ascii_of_N (48 + n) else ascii_of_N (87 + n).

Definition squote : ascii := ascii_of_N 39.
Definition dquote : ascii := ascii_of_N 34.
Definition backslash : ascii := ascii_of_N 92.

Definition escape_char (quote c : ascii) : string :=
  if (Ascii.eqb c quote || Ascii.eqb c backslash)%bool
  then String backslash (String c EmptyString)
  else if N.eqb (N_of_ascii c) 9 then String backslash "t"
  else if N.eqb (N_of_ascii c) 10 then String backslash "n"
  else if N.eqb (N_of_ascii c) 13 then String backslash "r"
  else if (N.ltb (N_of_ascii c) 32 || N.eqb (N_of_ascii c) 127)%bool
  then String backslash
         (String "x" (String (hex_digit (N.div (N_of_ascii c) 16))
                        (String (hex_digit (N.modulo (N_of_ascii c) 16))
                           EmptyString)))
  else String c EmptyString.

Fixpoint escape (quote : ascii) (s : string) : string :=
  match s with
  | EmptyString => EmptyString
  | String c t => escape_char quote c ++ escape quote t
  end.

(** [repr(s)] for a string: single quotes, unless the string holds a single
    quote and no double quote. *)
Definition repr (s : string) : string :=
  let quote := if (mem squote s && negb (mem dquote s))%bool
               then dquote else squote in
  String quote (escape quote s ++ String quote EmptyString).

End Str.

(** ** JSON values as Python sees them *)

#[local] Set Warnings "-register-all".

Inductive json : Type :=
| JNull
| JBool (b : bool)
| JInt (n : Z)
| JStr (s : string)
| JArr (items : list json)
| JObj (fields : list (string * json)).

Definition dict : Type := list (string * json).

(** [bool(v)]: the truth value used by [if v] and [a and b]. *)
Definition truthy (v : json) : bool :=
  match v with
  | JNull => false
  | JBool b => b
  | JInt n => negb (n =? 0)
  | JStr s => negb (Str.is_empty s)
  | JArr l => match l with [] => false | _ => true end
  | JObj d => match d with [] => false | _ => true end
  end.

Fixpoint dict_get (d : dict) (k : string) : option json :=
  match d with
  | [] => None
  | (k', v) :: rest => if String.eqb k k' then Some v else dict_get rest k
  end.

(** [repr(v)]; [str(v)] differs from it on strings only. *)
Fixpoint py_repr (v : json) : string :=
  match v with
  | JNull => "None"
  | JBool true => "True"
  | JBool false => "False"
  | JInt n => Str.of_Z n
  | JStr s => Str.repr s
  | JArr l =>
      "[" ++ (fix items (l : list json) : string :=
                match l with
                | [] => ""
                | x :: r =>
                    py_repr x ++ match r with [] => "" | _ => ", " ++ items r end
                end) l ++ "]"
  | JObj d =>
      "{" ++ (fix fields (d : list (string * json)) : string :=
                match d with
                | [] => ""
                | (k, x) :: r =>
                    Str.repr k ++ ": " ++ py_repr x ++
                    match r with [] => "" | _ => ", " ++ fields r end
                end) d ++ "}"
  end.

Definition py_str (v : json) : string :=
  match v with
  | JStr s => s
  | _ => py_repr v
  end.

(** [a == b].  [True] and [False] compare as the integers 1 and 0; dicts
    compare as maps, whatever the order of their keys. *)
Definition as_int (v : json) : option Z :=
  match v with
  | JBool b => Some (if b then 1 else 0)
  | JInt n => Some n
  | _ => None
  end.

Fixpoint py_eq (a b : json) : bool :=
  match a with
  | JNull => match b with JNull => true | _ => false end
  | JBool x =>
      match as_int b with Some n => (if x then 1 else 0) =? n | None => false end
  | JInt m =>
      match as_int b with Some n => m =? n | None => false end
  | JStr s => match b with JStr t => String.eqb s t | _ => false end
  | JArr l =>
      match b with
      | JArr l' =>
          (fix all2 (l l' : list json) : bool :=
             match l, l' with
             | [], [] => true
             | x :: r, y :: r' => (py_eq x y && all2 r r')%bool
             | _, _ => false
             end) l l'
      | _ => false
      end
  | JObj d =>
      match b with
      | JObj d' =>
          (Nat.eqb (List.length d) (List.length d') &&
           (fix sub (d : list (string * json)) : bool :=
              match d with
              | [] => true
              | (k, x) :: r =>
                  (match dict_get d' k with
                   | Some y => py_eq x y
                   | None => false
                   end && sub r)%bool
              end) d)%bool
      | _ => false
      end
  end.

Definition py_ne (a b : json) : bool := negb (py_eq a b).

(** ** Exceptions and the operations that raise them

    All of them are subclasses of [Exception]: what [except Exception] and
    the bare [except] of the source catch. *)

Inductive exn_class : Type :=
| JSONDecodeError | AttributeError | TypeError | IndexError | KeyError
| OtherError.

Inductive exn : Type := Exn (cls : exn_class) (msg : string).

Definition exn_cls (e : exn) : exn_class := let 'Exn c _ := e in c.
(** [str(e)] *)
Definition exn_msg (e : exn) : string := let 'Exn _ m := e in m.

Definition exn_class_eqb (a b : exn_class) : bool :=
  match a, b with
  | JSONDecodeError, JSONDecodeError | AttributeError, AttributeError
  | TypeError, TypeError | IndexError, IndexError | KeyError, KeyError
  | OtherError, OtherError => true
  | _, _ => false
  end.

Inductive result (A : Type) : Type :=
| Ok (a : A)
| Raise (e : exn).
Arguments Ok {A} a.
Arguments Raise {A} e.

Definition type_name (v : json) : string :=
  match v with
  | JNull => "NoneType"
  | JBool _ => "bool"
  | JInt _ => "int"
  | JStr _ => "str"
  | JArr _ => "list"
  | JObj _ => "dict"
  end.

Definition from_option (o : option json) (default : json) : json :=
  match o with Some v => v | None => default end.

(** [v.get(k, default)]: only a dict has a [get] method. *)
Definition py_get_default (v : json) (k : string) (default : json)
  : result json :=
  match v with
  | JObj d => Ok (from_option (dict_get d k) default)
  | _ => Raise (Exn AttributeError
                  ("'" ++ type_name v ++ "' object has no attribute 'get'"))
  end.

(** [v.get(k)] *)
Definition py_get (v : json) (k : string) : result json :=
  py_get_default v k JNull.

(** [len(v)] *)
Definition py_len (v : json) : result nat :=
  match v with
  | JStr s => Ok (String.length s)
  | JArr l => Ok (List.length l)
  | JObj d => Ok (List.length d)
  | _ => Raise (Exn TypeError
                  ("object of type '" ++ type_name v ++ "' has no len()"))
  end.

(** [v[i]] for an integer [i] within [range(len(v))]. *)
Definition py_item (v : json) (i : nat) : result json :=
  match v with
  | JArr l =>
      match nth_error l i with
      | Some x => Ok x
      | None => Raise (Exn IndexError "list index out of range")
      end
  | JStr s =>
      match String.get i s with
      | Some c => Ok (JStr (String c EmptyString))
      | None => Raise (Exn IndexError "string index out of range")
      end
  | JObj _ => Raise (Exn KeyError (Str.of_Z (Z.of_nat i)))
  | _ => Raise (Exn TypeError
                  ("'" ++ type_name v ++ "' object is not subscriptable"))
  end.

(** [v[k]] for a string key [k]. *)
Definition py_key (v : json) (k : string) : result json :=
  match v with
  | JObj d =>
      match dict_get d k with
      | Some x => Ok x
      | None => Raise (Exn KeyError (Str.repr k))
      end
  | JStr _ => Raise (Exn TypeError "string indices must be integers")
  | JArr _ => Raise (Exn TypeError "list indices must be integers or slices")
  | _ => Raise (Exn TypeError
                  ("'" ++ type_name v ++ "' object is not subscriptable"))
  end.

Fixpoint chars (s : string) : list json :=
  match s with
  | EmptyString => []
  | String c t => JStr (String c EmptyString) :: chars t
  end.

(** The elements [for x in v] runs through. *)
Definition py_iter (v : json) : result (list json) :=
  match v with
  | JArr l => Ok l
  | JStr s => Ok (chars s)
  | JObj d => Ok (List.map (fun kv => JStr (fst kv)) d)
  | _ => Raise (Exn TypeError
                  ("'" ++ type_name v ++ "' object is not iterable"))
  end.

Definition is_list (v : json) : bool :=
  match v with JArr _ => true | _ => false end.

(** ** Rounding

    [round(x, 2)] rounds to the nearest hundredth, ties to the even one.
    Amounts are exact rationals here: the binary representation error of
    Python floats is not modelled. *)
Definition round_half_even (q : Q) : Z :=
  let n := Qnum q in
  let d := Zpos (Qden q) in
  let f := n / d in
  match 2 * (n mod d) ?= d with
  | Lt => f
  | Gt => f + 1
  | Eq => if Z.even f then f else f + 1
  end.

Definition py_round2 (x : Q) : Q := round_half_even (x * 100) # 100.

(** ** Requests, responses and what is reported about them *)

Inductive verb : Type := GET | POST.

(** The [json=] argument of a request. *)
Inductive json_payload : Type :=
| LoginData (email password : json)
| TransferData (fromAccount toAccount : json) (amount : Q)
    (description : string).

Definition header_map : Type := list (string * string).

Record request : Type := Request {
  rq_verb : verb;
  rq_url : string;
  rq_json : option json_payload;
  rq_headers : option header_map;
  rq_name : string
}.

(** [response.json()] returns a value or raises [JSONDecodeError]. *)
Inductive body_text : Type :=
| Decodes (v : json)
| Undecodable (why : string).

Record response : Type := Response {
  status_code : Z;
  body : body_text
}.

(** The HTTP client returns a response (with status 0 when the backend
    cannot be reached) or raises. *)
Inductive reply : Type :=
| Answer (r : response)
| Fault (e : exn).

(** The manual result of a caught response: [response.success()],
    [response.failure(msg)], or neither. *)
Inductive mark : Type :=
| Unmarked
| Success
| Failure (msg : string).

Record event : Type := Event {
  ev_request : request;
  ev_reply : reply;
  ev_mark : mark
}.

(** ** The session object and its world *)

Record session : Type := Session {
  email : json;
  password : json;
  token : json;
  user_id : json;
  accounts : json
}.

Record world : Type := World {
  self : session;
  backend : nat -> reply;      (* the reply to the n-th request *)
  entropy : nat -> Z;          (* the n-th raw output of the generator *)
  requests : nat;              (* requests issued so far *)
  draws : nat;                 (* random numbers drawn so far *)
  manual_result : mark         (* of the response in scope *)
}.

Definition with_self (f : session -> session) (w : world) : world :=
  World (f (self w)) (backend w) (entropy w) (requests w) (draws w)
    (manual_result w).

Definition with_mark (m : mark) (w : world) : world :=
  World (self w) (backend w) (entropy w) (requests w) (draws w) m.

Definition next_request (w : world) : world :=
  World (self w) (backend w) (entropy w) (S (requests w)) (draws w) Unmarked.

Definition next_draw (w : world) : world :=
  World (self w) (backend w) (entropy w) (requests w) (S (draws w))
    (manual_result w).

Record run (A : Type) : Type := Run {
  outcome : result A;
  final : world;
  emitted : list event
}.
Arguments Run {A} outcome final emitted.
Arguments outcome {A} r.
Arguments final {A} r.
Arguments emitted {A} r.

Definition M (A : Type) : Type := world -> run A.

Definition ret {A} (a : A) : M A := fun w => Run (Ok a) w [].

Definition raise {A} (e : exn) : M A := fun w => Run (Raise e) w [].

Definition bind {A B} (m : M A) (f : A -> M B) : M B := fun w =>
  match m w with
  | Run (Ok a) w1 ev1 =>
      match f a w1 with
      | Run o w2 ev2 => Run o w2 (ev1 ++ ev2)
      end
  | Run (Raise e) w1 ev1 => Run (Raise e) w1 ev1
  end.

Declare Scope py_scope.
Delimit Scope py_scope with py.
Notation "x <- m ;; k" := (bind m (fun x => k))
  (at level 61, m at next level, right associativity) : py_scope.
Notation "m ;; k" := (bind m (fun _ => k))
  (at level 61, right associativity) : py_scope.
Local Open Scope py_scope.

Definition lift {A} (r : result A) : M A :=
  match r with
  | Ok a => ret a
  | Raise e => raise e
  end.

(** [try: m except <classes>: handler]; an exception of another class
    propagates. *)
Definition try_except {A} (catches : exn -> bool) (m : M A)
  (handler : exn -> M A) : M A := fun w =>
  match m w with
  | Run (Ok a) w1 ev1 => Run (Ok a) w1 ev1
  | Run (Raise e) w1 ev1 =>
      if catches e then
        match handler e w1 with
        | Run o w2 ev2 => Run o w2 (ev1 ++ ev2)
        end
      else Run (Raise e) w1 ev1
  end.

(** [except Exception] and the bare [except]. *)
Definition any_exception (e : exn) : bool := true.

Definition instance_of (classes : list exn_class) (e : exn) : bool :=
  existsb (exn_class_eqb (exn_cls e)) classes.

Definition get_self : M session := fun w => Run (Ok (self w)) w [].

Definition set_email (v : json) : M unit := fun w =>
  Run (Ok tt)
    (with_self (fun s => Session v (password s) (token s) (user_id s)
                           (accounts s)) w) [].

Definition set_password (v : json) : M unit := fun w =>
  Run (Ok tt)
    (with_self (fun s => Session (email s) v (token s) (user_id s)
                           (accounts s)) w) [].

Definition set_token (v : json) : M unit := fun w =>
  Run (Ok tt)
    (with_self (fun s => Session (email s) (password s) v (user_id s)
                           (accounts s)) w) [].

Definition set_user_id (v : json) : M unit := fun w =>
  Run (Ok tt)
    (with_self (fun s => Session (email s) (password s) (token s) v
                           (accounts s)) w) [].

Definition set_accounts (v : json) : M unit := fun w =>
  Run (Ok tt)
    (with_self (fun s => Session (email s) (password s) (token s)
                           (user_id s) v) w) [].

(** [response.success()] and [response.failure(msg)] *)
Definition success : M unit := fun w => Run (Ok tt) (with_mark Success w) [].

Definition failure (msg : string) : M unit := fun w =>
  Run (Ok tt) (with_mark (Failure msg) w) [].

Definition response_json (r : response) : M json :=
  match body r with
  | Decodes v => ret v
  | Undecodable why => raise (Exn JSONDecodeError why)
  end.

(** [with self.client.<verb>(..., catch_response=True) as response: block].
    The block's exceptions propagate; on the way out the request is reported
    with the manual result the block has set. *)
Definition with_response {A} (rq : request) (block : response -> M A)
  : M A := fun w =>
  let w1 := next_request w in
  match backend w (requests w) with
  | Fault e => Run (Raise e) w1 [Event rq (Fault e) Unmarked]
  | Answer r =>
      match block r w1 with
      | Run o w2 ev =>
          Run o w2 (ev ++ [Event rq (Answer r) (manual_result w2)])
      end
  end.

(** The generator: [_randbelow(n)] for [n > 0], and [random()], a multiple
    of [2^-53] in [[0, 1)]. *)
Definition randbelow (n : nat) : M nat := fun w =>
  Run (Ok (Z.to_nat (entropy w (draws w) mod Z.of_nat n))) (next_draw w) [].

Definition random : M Q := fun w =>
  Run (Ok ((entropy w (draws w) mod 9007199254740992) # 9007199254740992))
    (next_draw w) [].

(** [random.choice(seq)] *)
Definition random_choice (seq : json) : M json :=
  n <- lift (py_len seq) ;;
  if Nat.eqb n 0
  then raise (Exn IndexError "Cannot choose from an empty sequence")
  else i <- randbelow n ;; lift (py_item seq i).

(** [random.uniform(a, b)] *)
Definition uniform (a b : Q) : M Q :=
  r <- random ;; ret (a + (b - a) * r)%Q.

(** [seq and test(len(seq))] *)
Definition and_len (seq : json) (test : nat -> bool) : M bool :=
  if truthy seq then n <- lift (py_len seq) ;; ret (test n) else ret false.

Fixpoint filterM (keep : json -> M bool) (l : list json) : M (list json) :=
  match l with
  | [] => ret []
  | x :: r =>
      b <- keep x ;;
      rest <- filterM keep r ;;
      ret (if b then x :: rest else rest)
  end.

(** ** [locustfile.py] *)

(** Lines 56-64. *)
Definition TEST_CREDENTIALS : json :=
  JArr [ JObj [("email", JStr "user1@example.com");
               ("password", JStr "password123")];
         JObj [("email", JStr "user2@example.com");
               ("password", JStr "password123")];
         JObj [("email", JStr "user3@example.com");
               ("password", JStr "password123")];
         JObj [("email", JStr "admin@example.com");
               ("password", JStr "password123")] ].

Definition TEST_ACCOUNTS : json := JArr [JInt 1000001; JInt 1000002; JInt 1000003].

(** *** [BaseUser] *)

(** Lines 136-146: the [try] block of the 200 branch of [authenticate]. *)
Definition read_login_response (response : response) : M unit :=
  response_data <- response_json response ;;
  jwt <- lift (py_get response_data "jwtToken") ;;
  set_token jwt ;;
  user_data <- lift (py_get_default response_data "user" (JObj [])) ;;
  uid <- lift (py_get user_data "userId") ;;
  set_user_id uid ;;
  s <- get_self ;;
  if (truthy (token s) && truthy (user_id s))%bool
  then success
  else failure "Missing token or userId in response".

(** Lines 123-158: the [with] block of [authenticate]. *)
Definition login_block (response : response) : M unit :=
  let status_code := status_code response in
  if status_code =? 0 then
    failure "Connection failed - cannot reach backend. Check network configuration."
  else if status_code =? 200 then
    try_except (instance_of [JSONDecodeError; AttributeError])
      (read_login_response response)
      (fun e => failure ("Invalid JSON response: " ++ exn_msg e))
  else if status_code =? 401 then
    failure "Invalid credentials (401)"
  else if status_code =? 404 then
    failure "Login endpoint not found (404)"
  else
    failure ("Login failed with status " ++ Str.of_Z status_code).

(** Lines 108-158: the outer [try] block of [authenticate]. *)
Definition login_attempt : M unit :=
  s <- get_self ;;
  let login_data := LoginData (email s) (password s) in
  with_response (Request POST "/api/v1/login" (Some login_data) None
                   "Auth - Login")
    login_block.

Definition authenticate : M unit :=
  try_except any_exception login_attempt (fun e => ret tt).

Definition on_start : M unit :=
  set_token JNull ;;
  set_user_id JNull ;;
  set_accounts (JArr []) ;;
  creds <- random_choice TEST_CREDENTIALS ;;
  e <- lift (py_key creds "email") ;;
  set_email e ;;
  p <- lift (py_key creds "password") ;;
  set_password p ;;
  authenticate.

Definition get_headers (s : session) : header_map :=
  let headers := [("Content-Type", "application/json")] in
  if truthy (token s)
  then (headers
        ++ [("Authorization", ("Bearer " ++ py_str (token s))%string)])%list
  else headers.

(** [success_field] is [None] or a field name. *)
Definition field_given (success_field : option string) : bool :=
  match success_field with
  | Some f => negb (Str.is_empty f)
  | None => false
  end.

(** Lines 189-198: the [try] block of [validate_response]. *)
Definition check_success_field (response : response)
  (success_field : option string) : M bool :=
  data <- response_json response ;;
  match success_field with
  | Some f =>
      if field_given success_field then
        field_value <- lift (py_get data f) ;;
        if (truthy field_value
            && Str.contains "SUCCESS" (Str.upper (py_str field_value)))%bool
        then ret true
        else if truthy field_value then ret false
        else ret true
      else ret true
  | None => ret true
  end.

Definition validate_response (response : response)
  (success_field : option string) : M bool :=
  if status_code response =? 0 then ret false
  else if status_code response =? 200 then
    try_except (instance_of [JSONDecodeError; AttributeError])
      (check_success_field response success_field)
      (fun _ => ret true)
  else ret false.

(** Lines 235-238: the [try] block of the 200 branch of
    [get_user_accounts]. *)
Definition store_accounts (response : response) : M json :=
  v <- response_json response ;;
  set_accounts v ;;
  _ <- lift (py_len v) ;;
  success ;;
  s <- get_self ;;
  ret (accounts s).

(** Lines 225-250: the [with] block of [get_user_accounts]; a branch that
    falls out of the block reaches [return []] at line 254. *)
Definition accounts_block (response : response) : M json :=
  let status_code := status_code response in
  if status_code =? 0 then
    failure "Connection failed - cannot reach backend" ;; ret (JArr [])
  else if status_code =? 200 then
    try_except (instance_of [JSONDecodeError])
      (store_accounts response)
      (fun e => failure "Invalid JSON response" ;; ret (JArr []))
  else if status_code =? 401 then
    failure "Unauthorized - token may be invalid" ;; ret (JArr [])
  else if status_code =? 404 then
    failure "User not found" ;; ret (JArr [])
  else
    failure ("Unexpected status: " ++ Str.of_Z status_code) ;; ret (JArr []).

Definition get_user_accounts : M json :=
  s <- get_self ;;
  if negb (truthy (user_id s)) then ret (JArr [])
  else if truthy (accounts s) then ret (accounts s)
  else
    try_except any_exception
      (let url := "/api/v1/account/user/" ++ py_str (user_id s) in
       with_response (Request GET url None (Some (get_headers s))
                        "Account - Get User Accounts")
         accounts_block)
      (fun e => ret (JArr [])).

(** *** [BrowseUser] *)

(** Lines 287-302. *)
Definition view_account_block (response : response) : M unit :=
  let status_code := status_code response in
  if status_code =? 0 then failure "Connection failed"
  else if status_code =? 200 then
    ok <- validate_response response None ;;
    if ok then success else failure "Invalid response data"
  else if status_code =? 401 then failure "Unauthorized"
  else if status_code =? 404 then failure "Account not found"
  else failure ("Unexpected status: " ++ Str.of_Z status_code).

Definition browse_accounts : M unit :=
  accounts <- get_user_accounts ;;
  some <- and_len accounts (fun n => Nat.ltb 0 n) ;;
  if some then
    account <- random_choice accounts ;;
    account_no <- lift (py_get account "accountno") ;;
    if truthy account_no then
      let url := "/api/v1/account/" ++ py_str account_no in
      s <- get_self ;;
      with_response (Request GET url None (Some (get_headers s))
                       "Account - View Account Details")
        view_account_block
    else ret tt
  else
    _ <- get_user_accounts ;; ret tt.

(** *** [ActiveUser] *)

(** Lines 364-371: the 400 branch of the transfer block. *)
Definition business_rejection (response : response) : M unit :=
  try_except any_exception
    (error_data <- response_json response ;;
     if (Str.contains "insufficient" (Str.lower (py_str error_data))
         || Str.contains "balance" (Str.lower (py_str error_data)))%bool
     then success
     else failure ("Bad request: " ++ py_str error_data))
    (fun _ => failure "Bad request").

(** Lines 352-375. *)
Definition transfer_block (response : response) : M unit :=
  let status_code := status_code response in
  if status_code =? 0 then failure "Connection failed"
  else if status_code =? 200 then
    ok <- validate_response response (Some "transactionStatus") ;;
    if ok then success else failure "Transfer did not succeed"
  else if status_code =? 400 then business_rejection response
  else if status_code =? 401 then failure "Unauthorized"
  else failure ("Unexpected status: " ++ Str.of_Z status_code).

(** Line 326: the accounts whose number differs from the source's. *)
Definition other_accounts (accounts from_account : json) : M json :=
  l <- lift (py_iter accounts) ;;
  kept <- filterM (fun acc =>
                     a <- lift (py_get acc "accountno") ;;
                     b <- lift (py_get from_account "accountno") ;;
                     ret (py_ne a b)) l ;;
  ret (JArr kept).

Definition view_and_transfer : M unit :=
  accounts <- get_user_accounts ;;
  enough <- and_len accounts (fun n => Nat.leb 2 n) ;;
  if enough then
    from_account <- random_choice accounts ;;
    others <- other_accounts accounts from_account ;;
    to_account <- random_choice others ;;
    from_account_no <- lift (py_get from_account "accountno") ;;
    to_account_no <- lift (py_get to_account "accountno") ;;
    if (truthy from_account_no && truthy to_account_no)%bool then
      u <- uniform 1 100 ;;
      let transfer_amount := py_round2 u in
      let transfer_data :=
        TransferData from_account_no to_account_no transfer_amount
          "Test transfer from load test" in
      s <- get_self ;;
      with_response (Request POST "/api/v1/account/transfer"
                       (Some transfer_data) (Some (get_headers s))
                       "Account - Transfer Money")
        transfer_block
    else ret tt
  else
    _ <- get_user_accounts ;; ret tt.

(** *** [HistoryUser] *)

(** Lines 411-431. *)
Definition history_block (response : response) : M unit :=
  let status_code := status_code response in
  if status_code =? 0 then failure "Connection failed"
  else if status_code =? 200 then
    try_except (instance_of [JSONDecodeError])
      (transactions <- response_json response ;;
       if is_list transactions then success
       else failure "Invalid response format - expected list")
      (fun _ => failure "Invalid JSON response")
  else if status_code =? 401 then failure "Unauthorized"
  else if status_code =? 404 then failure "Account not found"
  else failure ("Unexpected status: " ++ Str.of_Z status_code).

(** Lines 444-448. *)
Definition fallback_block (response : response) : M unit :=
  let status_code := status_code response in
  if ((status_code =? 200) || (status_code =? 404))%bool then success
  else failure ("Unexpected status: " ++ Str.of_Z status_code).

Definition view_transaction_history : M unit :=
  accounts <- get_user_accounts ;;
  some <- and_len accounts (fun n => Nat.ltb 0 n) ;;
  if some then
    account <- random_choice accounts ;;
    account_no <- lift (py_get account "accountno") ;;
    if truthy account_no then
      let url := "/api/v1/account/transactions/" ++ py_str account_no in
      s <- get_self ;;
      with_response (Request GET url None (Some (get_headers s))
                       "Account - View Transaction History")
        history_block
    else ret tt
  else
    test_account <- random_choice TEST_ACCOUNTS ;;
    let url := "/api/v1/account/transactions/" ++ py_str test_account in
    s <- get_self ;;
    with_response (Request GET url None (Some (get_headers s))
                     "Account - View Transaction History")
      fallback_block.

(** *** A session: [on_start], then the class's task over and over *)

Inductive user_class : Type := BrowseUser | ActiveUser | HistoryUser.

Definition task (c : user_class) : M unit :=
  match c with
  | BrowseUser => browse_accounts
  | ActiveUser => view_and_transfer
  | HistoryUser => view_transaction_history
  end.

(** The world after [n] more runs of the task; a task that raises ends
    there, and the session goes on with the next one. *)
Fixpoint after_tasks (c : user_class) (n : nat) (w : world) : world :=
  match n with
  | O => w
  | S k => after_tasks c k (final (task c w))
  end.

(** ** Vocabulary of the properties *)

(** [headers.get(k)] on a header dict. *)
Fixpoint header (k : string) (h : header_map) : option string :=
  match h with
  | [] => None
  | (k', v) :: rest => if String.eqb k k' then Some v else header k rest
  end.

(** The field [f] of a decoded body, when the body is an object that has
    it. *)
Definition field_of (v : json) (f : string) : option json :=
  match v with
  | JObj d => dict_get d f
  | _ => None
  end.

Definition body_field (r : response) (f : string) : option json :=
  match body r with
  | Decodes v => field_of v f
  | Undecodable _ => None
  end.

(** The [user.userId] of a login body. *)
Definition body_user_id (r : response) : option json :=
  match body_field r "user" with
  | Some u => field_of u "userId"
  | None => None
  end.

(** Every character of the text is an ASCII one: the texts on which
    [Str.upper], [Str.lower] and [Str.repr] are Python's. *)
Fixpoint ascii_string (s : string) : bool :=
  match s with
  | EmptyString => true
  | String c t => (N.ltb (N_of_ascii c) 128 && ascii_string t)%bool
  end.

(** Every string in the value, keys included, is ASCII. *)
Fixpoint ascii_json (v : json) : bool :=
  match v with
  | JNull | JBool _ | JInt _ => true
  | JStr s => ascii_string s
  | JArr l =>
      (fix all (l : list json) : bool :=
         match l with
         | [] => true
         | x :: r => (ascii_json x && all r)%bool
         end) l
  | JObj d =>
      (fix all (d : list (string * json)) : bool :=
         match d with
         | [] => true
         | (k, x) :: r => (ascii_string k && ascii_json x && all r)%bool
         end) d
  end.



(** [py_str v] is Python's [str(v)]: for every string, and for another
    value when the strings it holds are ASCII. *)
Definition str_exact (v : json) : bool :=
  match v with
  | JStr _ => true
  | _ => ascii_json v
  end.


(** The body has a truthy field [f] whose text does not contain SUCCESS. *)
Definition field_refused (f : string) (r : response) : bool :=
  match body_field r f with
  | Some v =>
      (truthy v && negb (Str.contains "SUCCESS" (Str.upper (py_str v))))%bool
  | None => false
  end.

Definition status_refused : response -> bool :=
  field_refused "transactionStatus".


Definition transfer_name : string := "Account - Transfer Money".
Definition history_name : string := "Account - View Transaction History".

Definition login_request (s : session) : request :=
  Request POST "/api/v1/login" (Some (LoginData (email s) (password s)))
    None "Auth - Login".

Definition accounts_request (s : session) : request :=
  Request GET ("/api/v1/account/user/" ++ py_str (user_id s)) None
    (Some (get_headers s)) "Account - Get User Accounts".

(** [ev] reports a transfer between two accounts of the list [fetched]. *)
Definition transfer_event (fetched : json) (ev : event) : Prop :=
  exists (l : list json) (a b fa fb : json) (u : Q) (w' : world),
    fetched = JArr l
    /\ (2 <= List.length l)%nat
    /\ In a l /\ In b l
    /\ field_of a "accountno" = Some fa
    /\ field_of b "accountno" = Some fb
    /\ py_ne fb fa = true
    /\ truthy fa = true /\ truthy fb = true
    /\ (0 <= u)%Q /\ (u < 1)%Q
    /\ ev_request ev
       = Request POST "/api/v1/account/transfer"
           (Some (TransferData fa fb (py_round2 (1 + (100 - 1) * u))
                    "Test transfer from load test"))
           (Some (get_headers (self w'))) transfer_name
    /\ match ev_reply ev with
       | Fault _ => ev_mark ev = Unmarked
       | Answer r => ev_mark ev = manual_result (final (transfer_block r w'))
       end.

(** An exception is raised while [authenticate] runs: by the request, or
    in the [try] block that reads a 200 response. *)
Definition raises_in_authenticate (w : world) : Prop :=
  match backend w (requests w) with
  | Fault _ => True
  | Answer r =>
      status_code r = 200
      /\ exists e, outcome (read_login_response r (next_request w)) = Raise e
  end.

(** The [jwtToken] of the reply to the next request, [None] without one. *)
Definition offered_token (w : world) : json :=
  match backend w (requests w) with
  | Fault _ => JNull
  | Answer r => from_option (body_field r "jwtToken") JNull
  end.

(** *** Sample sessions *)

Definition fresh_session : session :=
  Session JNull JNull JNull JNull (JArr []).

Definition world_of (s : session) (net : nat -> reply) : world :=
  World s net (fun _ => 0) O O Unmarked.

Definition always (r : response) : nat -> reply := fun _ => Answer r.

(** A login answer with a token and no user. *)
Definition token_only : response :=
  Response 200 (Decodes (JObj [("jwtToken", JStr "abc")])).

(** A login answer with a token and a null user. *)
Definition null_user : response :=
  Response 200 (Decodes (JObj [("jwtToken", JStr "abc"); ("user", JNull)])).

(** A session that is logged in and has two accounts in its cache. *)
Definition account (n : Z) : json := JObj [("accountno", JInt n)].

Definition two_accounts : session :=
  Session (JStr "user1@example.com") (JStr "password123") (JStr "abc")
    (JInt 7) (JArr [account 11; account 12]).

(** A 200 transfer answer without a [transactionStatus]. *)
Definition no_status : response := Response 200 (Decodes (JObj [])).

(** A 400 transfer answer that speaks of a balance, not of an insufficient
    one. *)
Definition invalid_balance : response :=
  Response 400 (Decodes (JObj [("message", JStr "Invalid balance")])).

(** The transfer request of [two_accounts] when the generator yields 0. *)
Definition sample_transfer (answer : response) (m : mark) : event :=
  Event (Request POST "/api/v1/account/transfer"
           (Some (TransferData (JInt 11) (JInt 12) (100 # 100)
                    "Test transfer from load test"))
           (Some [("Content-Type", "application/json");
                  ("Authorization", "Bearer abc")])
           transfer_name)
    (Answer answer) m.

(** A session that is logged in and has fetched no account yet. *)
Definition no_accounts : session :=
  Session (JStr "user1@example.com") (JStr "password123") (JStr "abc")
    (JInt 7) (JArr []).

Definition account_list : response :=
  Response 200 (Decodes (JArr [account 11; account 12])).

(** A transfer answer with a status that is not a success. *)
Definition failed_status : response :=
  Response 200 (Decodes (JObj [("transactionStatus", JStr "FAILED")])).

Definition not_found : response := Response 404 (Undecodable "Expecting value").

(** A session whose token is the number 0. *)
Definition zero_token : session :=
  Session (JStr "user1@example.com") (JStr "password123") (JInt 0) (JInt 7)
    (JArr []).

(** A login answer with an empty token and a null user. *)
Definition empty_token : response :=
  Response 200 (Decodes (JObj [("jwtToken", JStr ""); ("user", JNull)])).

(** A login answer that is not JSON. *)
Definition not_json : response :=
  Response 200 (Undecodable "Expecting value: line 1 column 1 (char 0)").

(** The session has a user id and a populated account cache. *)
Definition cached (s : session) : Prop :=
  truthy (user_id s) = true /\ truthy (accounts s) = true.

(** Run on a session with a populated cache, [m] leaves the session object
    as it is. *)
Definition keeps_cache {A} (m : M A) : Prop :=
  forall w, cached (self w) -> self (final (m w)) = self w.

(** The fetch of the account list fails: the client raises, the status is
    not 200 (0 when the backend cannot be reached), or the body is not
    JSON. *)
Definition fetch_fails (w : world) : Prop :=
  match backend w (requests w) with
  | Fault _ => True
  | Answer r => status_code r <> 200 \/ exists why, body r = Undecodable why
  end.

(** *** Runs, judged

    [triple I m Q P]: run on a session that satisfies [I], the computation
    [m] leaves a session that satisfies [I], emits only events that satisfy
    [P], and returns only values that satisfy [Q]. *)
Definition triple {A} (I : session -> Prop) (m : M A) (Q : A -> Prop)
  (P : event -> Prop) : Prop :=
  forall w,
    I (self w) ->
    I (self (final (m w)))
    /\ (forall ev, In ev (emitted (m w)) -> P ev)
    /\ (forall a, outcome (m w) = Ok a -> Q a).

(** The block of a [with] statement leaves the session object alone, sends
    nothing, and ends with a manual result that [V] allows for its
    response. *)
Definition block_marks (block : response -> M unit)
  (V : response -> mark -> Prop) : Prop :=
  forall r w,
    self (final (block r w)) = self w
    /\ emitted (block r w) = []
    /\ outcome (block r w) = Ok tt
    /\ V r (manual_result (final (block r w))).

(** [I] does not look at the account cache. *)
Definition accounts_blind (I : session -> Prop) : Prop :=
  forall s v,
    I s -> I (Session (email s) (password s) (token s) (user_id s) v).

(** The manual result [get_user_accounts] leaves on its request. *)
Definition fetch_mark (a : reply) (m : mark) : Prop :=
  match a with
  | Fault _ => m = Unmarked
  | Answer r =>
      if status_code r =? 200 then
        match body r with
        | Decodes v =>
            match py_len v with
            | Ok _ => m = Success
            | Raise _ => m = Unmarked
            end
        | Undecodable _ => m = Failure "Invalid JSON response"
        end
      else exists msg, m = Failure msg
  end.

(** [m] sends at most [n] requests. *)
Definition at_most (n : nat) {A} (m : M A) : Prop :=
  forall w, (List.length (emitted (m w)) <= n)%nat.

(** The session is the one of [s0], but for its account cache. *)
Definition same_login (s0 s : session) : Prop :=
  email s = email s0 /\ password s = password s0
  /\ token s = token s0 /\ user_id s = user_id s0.

(** A report is sound: a request that raised has no manual result; a
    response with status 0 is a failure; a success has status 200, or 400
    for a transfer, or 404 for a transaction history. *)
Definition sound_report (ev : event) : Prop :=
  match ev_reply ev with
  | Fault _ => ev_mark ev = Unmarked
  | Answer r =>
      (status_code r = 0 -> exists msg, ev_mark ev = Failure msg)
      /\ (ev_mark ev = Success ->
          status_code r = 200
          \/ (status_code r = 400 /\ rq_name (ev_request ev) = transfer_name)
          \/ (status_code r = 404 /\ rq_name (ev_request ev) = history_name))
  end.

(** The request carries the headers [get_headers] builds for [s0]. *)
Definition carries_headers (s0 : session) (ev : event) : Prop :=
  rq_headers (ev_request ev) = Some (get_headers s0).

(** The names under which a class reports its requests. *)
Definition fetch_name : string := "Account - Get User Accounts".

Definition task_request_name (c : user_class) : string :=
  match c with
  | BrowseUser => "Account - View Account Details"
  | ActiveUser => transfer_name
  | HistoryUser => history_name
  end.

(** What holds of every report of a task of class [c] in the session of
    [s0]. *)
Definition task_report (c : user_class) (s0 : session) (ev : event) : Prop :=
  sound_report ev
  /\ carries_headers s0 ev
  /\ (rq_name (ev_request ev) = fetch_name
      \/ rq_name (ev_request ev) = task_request_name c).


(** *** More sample sessions *)

(** The answer of a client that cannot reach the backend. *)
Definition unreachable : response := Response 0 (Undecodable "").

(** A login answer with a token and a user. *)
Definition full_login : response :=
  Response 200
    (Decodes (JObj [("jwtToken", JStr "abc");
                    ("user", JObj [("userId", JInt 7)])])).

Definition empty_list : response := Response 200 (Decodes (JArr [])).

Definition number_body : response := Response 200 (Decodes (JInt 5)).

(** Sessions whose cached accounts share a number, or are bare numbers. *)
Definition same_numbers : session :=
  Session (JStr "user1@example.com") (JStr "password123") (JStr "abc")
    (JInt 7) (JArr [account 11; account 11]).

Definition bare_numbers : session :=
  Session (JStr "user1@example.com") (JStr "password123") (JStr "abc")
    (JInt 7) (JArr [JInt 11; JInt 12]).

Definition sample_headers : header_map :=
  [("Content-Type", "application/json"); ("Authorization", "Bearer abc")].

(** The requests of [two_accounts] for its first account. *)
Definition sample_view (answer : response) (m : mark) : event :=
  Event (Request GET "/api/v1/account/11" None (Some sample_headers)
           "Account - View Account Details")
    (Answer answer) m.




(** ** Properties *)

Example repr_dict :
  py_str (JObj [("message", JStr "Invalid balance"); ("code", JInt 400)])
  = "{'message': 'Invalid balance', 'code': 400}".
Proof. reflexivity. Qed.

Example upper_mixed : Str.upper "Success-1" = "SUCCESS-1".
Proof. reflexivity. Qed.

Example true_is_one : py_eq (JBool true) (JInt 1) = true.
Proof. reflexivity. Qed.

Example round_ties_to_even :
  py_round2 (125 # 1000) = 12 # 100 /\ py_round2 (135 # 1000) = 14 # 100.
Proof. split; reflexivity. Qed.

(** *** Headers *)

Lemma authorization_header (s : session) :
  header "Authorization" (get_headers s)
  = if truthy (token s) then Some ("Bearer " ++ py_str (token s)) else None.
Proof. unfold get_headers. destruct (truthy (token s)); reflexivity. Qed.

(** C10, as the code has it. For every session state, [get_headers] returns
    a dict that holds [Content-Type: application/json], and holds an
    [Authorization] entry exactly when the token is truthy
    ([if self.token]); the entry is ["Bearer "] followed by the text of the
    token. A truthy token is not [None] and not the empty string, and for a
    token that is [None] or a string that is all there is to it; a token
    such as 0 or [False] is not [None] and gets no entry. *)
Theorem get_headers_spec (s : session) :
  header "Content-Type" (get_headers s) = Some "application/json"
  /\ (header "Authorization" (get_headers s) = None
      <-> truthy (token s) = false)
  /\ (truthy (token s) = true ->
      str_exact (token s) = true ->
      header "Authorization" (get_headers s)
      = Some ("Bearer " ++ py_str (token s)))
  /\ (truthy (token s) = true -> token s <> JNull /\ token s <> JStr "")
  /\ (forall t : string,
        token s = JNull \/ token s = JStr t ->
        (truthy (token s) = true
         <-> token s <> JNull /\ token s <> JStr "")).
Proof.
  split; [ | split; [ | split; [ | split ] ] ].
  - unfold get_headers. destruct (truthy (token s)); reflexivity.
  - rewrite authorization_header.
    destruct (truthy (token s)); split; (discriminate || reflexivity).
  - intros T _. rewrite authorization_header, T. reflexivity.
  - intros T. split; intros E; rewrite E in T; discriminate.
  - intros t H. destruct H as [-> | ->]; cbn.
    + split; [ discriminate | intros [N _]; contradiction ].
    + destruct t as [ | c t]; cbn.
      * split; [ discriminate | intros [_ N]; contradiction ].
      * split; [ intros _; split; discriminate | reflexivity ].
Qed.

(** C10 fails as stated: the token 0 is not [None] and not empty, and
    [get_headers] builds no [Authorization] entry for it. *)
Lemma zero_token_has_no_authorization :
  token zero_token <> JNull
  /\ token zero_token <> JStr ""
  /\ header "Content-Type" (get_headers zero_token) = Some "application/json"
  /\ header "Authorization" (get_headers zero_token) = None.
Proof. repeat split; discriminate. Qed.

(** *** Response validation *)

Lemma validate_response_run (r : response) (f : option string) (w : world) :
  validate_response r f w
  = Run (Ok (if status_code r =? 200
             then match f with
                  | Some k => negb (field_given f && field_refused k r)
                  | None => true
                  end
             else false)) w [].
Proof.
  unfold validate_response.
  destruct (Z.eqb_spec (status_code r) 0) as [E0 | _].
  - rewrite E0. reflexivity.
  - destruct (status_code r =? 200); [ | reflexivity ].
    unfold try_except, check_success_field, bind, response_json,
      field_refused, body_field.
    destruct f as [k | ]; [ | destruct (body r); reflexivity ].
    destruct (body r) as [v | why]; cbn;
      [ | rewrite andb_false_r; reflexivity ].
    destruct (negb (Str.is_empty k)); [ | reflexivity ].
    destruct v as [ | b | n | s | l | d ]; cbn; try reflexivity.
    unfold from_option.
    destruct (dict_get d k) as [x | ]; cbn; [ | reflexivity ].
    destruct (truthy x); cbn; [ | reflexivity ].
    destruct (Str.contains "SUCCESS" (Str.upper (py_str x))); reflexivity.
Qed.

(** C9. For a response with status 200, [validate_response] returns [True]
    when the body fails to decode, and when a field name is given and the
    decoded body has no such field or a falsy one; it returns [False] only
    when the status is not 200, or the given field is there, truthy, and its
    text does not contain SUCCESS in upper case. *)
Theorem validate_response_spec (r : response) (f : option string)
  (w : world) :
  (status_code r = 200 ->
     (forall why, body r = Undecodable why ->
        validate_response r f w = Run (Ok true) w [])
     /\ (forall k v, f = Some k -> body r = Decodes v ->
           match field_of v k with
           | Some x => truthy x = false
           | None => True
           end ->
           validate_response r f w = Run (Ok true) w []))
  /\ (outcome (validate_response r f w) = Ok false ->
      status_code r <> 200
      \/ exists k x,
           f = Some k /\ body_field r k = Some x /\ truthy x = true
           /\ Str.contains "SUCCESS" (Str.upper (py_str x)) = false).
Proof.
  rewrite validate_response_run. split.
  - intros E. rewrite E. cbn. split.
    + intros why B. destruct f as [k | ]; [ | reflexivity ].
      unfold field_refused, body_field. rewrite B.
      rewrite andb_false_r. reflexivity.
    + intros k v -> B F.
      unfold field_refused, body_field. rewrite B.
      destruct (field_of v k) as [x | ].
      * rewrite F. cbn. rewrite andb_false_r. reflexivity.
      * rewrite andb_false_r. reflexivity.
  - cbn. destruct (Z.eqb_spec (status_code r) 200) as [E | N].
    + intros H. right. destruct f as [k | ]; [ | discriminate ].
      exists k. unfold field_refused in H.
      destruct (body_field r k) as [x | ].
      * exists x. split; [ reflexivity | ]. split; [ reflexivity | ].
        destruct (field_given (Some k)); [ | discriminate ].
        destruct (truthy x); [ | discriminate ].
        destruct (Str.contains "SUCCESS" (Str.upper (py_str x)));
          [ discriminate | split; reflexivity ].
      * rewrite andb_false_r in H. discriminate.
    + intros _. left. exact N.
Qed.

(** *** Runs of composed computations *)

Lemma run_eta {A} (r : run A) : r = Run (outcome r) (final r) (emitted r).
Proof. destruct r; reflexivity. Qed.

Lemma bind_ok {A B} (m : M A) (f : A -> M B) (w : world) (a : A) :
  outcome (m w) = Ok a ->
  bind m f w
  = Run (outcome (f a (final (m w)))) (final (f a (final (m w))))
      (emitted (m w) ++ emitted (f a (final (m w)))).
Proof.
  unfold bind. destruct (m w) as [o w1 ev1]; cbn. intros ->.
  destruct (f a w1); reflexivity.
Qed.

Lemma bind_raise {A B} (m : M A) (f : A -> M B) (w : world) (e : exn) :
  outcome (m w) = Raise e ->
  bind m f w = Run (Raise e) (final (m w)) (emitted (m w)).
Proof.
  unfold bind. destruct (m w) as [o w1 ev1]; cbn. intros ->. reflexivity.
Qed.

(** An event of [m ;; f] comes from [m], or from [f] run after [m]
    returned. *)
Lemma in_bind {A B} (m : M A) (f : A -> M B) (w : world) (ev : event) :
  In ev (emitted (bind m f w)) ->
  In ev (emitted (m w))
  \/ exists a, outcome (m w) = Ok a /\ In ev (emitted (f a (final (m w)))).
Proof.
  destruct (outcome (m w)) as [a | e] eqn:O.
  - rewrite (bind_ok _ _ _ _ O). cbn. intros H.
    apply in_app_or in H. destruct H as [H | H]; [ left; exact H | ].
    right. exists a. split; [ reflexivity | exact H ].
  - rewrite (bind_raise _ _ _ _ O). cbn. intros H. left. exact H.
Qed.

Lemma in_bind_quiet {A B} (m : M A) (f : A -> M B) (w : world) (ev : event) :
  emitted (m w) = [] ->
  In ev (emitted (bind m f w)) ->
  exists a, outcome (m w) = Ok a /\ In ev (emitted (f a (final (m w)))).
Proof.
  intros Q H. apply in_bind in H. rewrite Q in H.
  destruct H as [[] | H]. exact H.
Qed.

Lemma lift_run {A} (r : result A) (w : world) : lift r w = Run r w [].
Proof. destruct r; reflexivity. Qed.

Lemma bind_lift {A B} (r : result A) (f : A -> M B) (w : world) :
  bind (lift r) f w
  = match r with
    | Ok a => f a w
    | Raise e => Run (Raise e) w []
    end.
Proof.
  unfold bind. rewrite lift_run. destruct r as [a | e]; [ | reflexivity ].
  destruct (f a w); reflexivity.
Qed.

Lemma and_len_run (seq : json) (test : nat -> bool) (w : world) :
  final (and_len seq test w) = w /\ emitted (and_len seq test w) = [].
Proof.
  unfold and_len. destruct (truthy seq); [ | split; reflexivity ].
  unfold bind. rewrite lift_run. destruct (py_len seq); split; reflexivity.
Qed.

Lemma and_len_true (seq : json) (test : nat -> bool) (w : world) :
  outcome (and_len seq test w) = Ok true ->
  truthy seq = true /\ exists n, py_len seq = Ok n /\ test n = true.
Proof.
  unfold and_len. destruct (truthy seq); [ | discriminate ].
  unfold bind. rewrite lift_run. destruct (py_len seq) as [n | e]; cbn;
    [ | discriminate ].
  intros H. split; [ reflexivity | ]. exists n. split; [ reflexivity | ].
  congruence.
Qed.

Lemma and_len_falsy (seq : json) (test : nat -> bool) (w : world) :
  truthy seq = false -> and_len seq test w = Run (Ok false) w [].
Proof. unfold and_len. intros ->. reflexivity. Qed.

Lemma random_choice_run (seq : json) (w : world) :
  emitted (random_choice seq w) = []
  /\ self (final (random_choice seq w)) = self w
  /\ backend (final (random_choice seq w)) = backend w
  /\ requests (final (random_choice seq w)) = requests w.
Proof.
  unfold random_choice, bind. rewrite lift_run.
  destruct (py_len seq) as [n | e]; cbn; [ | repeat split ].
  destruct (Nat.eqb n 0); cbn; [ repeat split | ].
  rewrite lift_run. destruct (py_item seq _); repeat split.
Qed.

(** [random.choice] returns an element of a list. *)
Lemma random_choice_list (l : list json) (w : world) (x : json) :
  outcome (random_choice (JArr l) w) = Ok x -> In x l.
Proof.
  unfold random_choice, bind. rewrite lift_run. cbn.
  destruct (Nat.eqb (List.length l) 0); cbn; [ discriminate | ].
  rewrite lift_run. cbn.
  destruct (nth_error l _) as [y | ] eqn:N; cbn; [ | discriminate ].
  intros H. injection H as <-. eapply nth_error_In. exact N.
Qed.

Lemma filterM_pure (keep : json -> M bool) (l : list json) (w : world) :
  (forall x w', final (keep x w') = w' /\ emitted (keep x w') = []) ->
  final (filterM keep l w) = w /\ emitted (filterM keep l w) = [].
Proof.
  intros P. induction l as [ | x r IH]; [ split; reflexivity | ].
  cbn. destruct (P x w) as [Pf Pe].
  destruct (outcome (keep x w)) as [b | e] eqn:K.
  - rewrite (bind_ok _ _ _ _ K). cbn. rewrite Pf, Pe.
    destruct IH as [IHf IHe].
    destruct (outcome (filterM keep r w)) as [rest | e] eqn:F.
    + rewrite (bind_ok _ _ _ _ F). cbn. rewrite IHf, IHe.
      split; reflexivity.
    + rewrite (bind_raise _ _ _ _ F). cbn. rewrite IHf, IHe.
      split; reflexivity.
  - rewrite (bind_raise _ _ _ _ K). cbn. split; assumption.
Qed.

Lemma filterM_kept (keep : json -> M bool) (l kept : list json)
  (w : world) (x : json) :
  (forall y w', final (keep y w') = w') ->
  outcome (filterM keep l w) = Ok kept ->
  In x kept -> In x l /\ outcome (keep x w) = Ok true.
Proof.
  intros P. revert kept. induction l as [ | y r IH]; intros kept.
  - cbn. intros H. injection H as <-. intros [].
  - cbn. destruct (outcome (keep y w)) as [b | e] eqn:K.
    + rewrite (bind_ok _ _ _ _ K). cbn. rewrite P.
      destruct (outcome (filterM keep r w)) as [rest | e] eqn:F.
      * rewrite (bind_ok _ _ _ _ F). cbn. intros H. injection H as <-.
        intros I. destruct b.
        -- destruct I as [<- | I].
           ++ split; [ left; reflexivity | exact K ].
           ++ destruct (IH rest eq_refl I) as [I1 I2].
              split; [ right; exact I1 | exact I2 ].
        -- destruct (IH rest eq_refl I) as [I1 I2].
           split; [ right; exact I1 | exact I2 ].
      * rewrite (bind_raise _ _ _ _ F). cbn. discriminate.
    + rewrite (bind_raise _ _ _ _ K). cbn. discriminate.
Qed.

Lemma with_response_fault {A} (rq : request) (block : response -> M A)
  (w : world) (e : exn) :
  backend w (requests w) = Fault e ->
  with_response rq block w
  = Run (Raise e) (next_request w) [Event rq (Fault e) Unmarked].
Proof. unfold with_response. intros ->. reflexivity. Qed.

Lemma with_response_answer {A} (rq : request) (block : response -> M A)
  (w : world) (r : response) :
  backend w (requests w) = Answer r ->
  with_response rq block w
  = Run (outcome (block r (next_request w)))
      (final (block r (next_request w)))
      (emitted (block r (next_request w))
       ++ [Event rq (Answer r)
             (manual_result (final (block r (next_request w))))]).
Proof.
  unfold with_response. intros ->.
  destruct (block r (next_request w)); reflexivity.
Qed.

(** *** Authentication *)

(** What the [try] block of the 200 branch does, body by body. *)
Lemma read_login_response_run (r : response) (w : world) :
  read_login_response r w
  = match body r with
    | Undecodable why => Run (Raise (Exn JSONDecodeError why)) w []
    | Decodes (JObj d) =>
        let jwt := from_option (dict_get d "jwtToken") JNull in
        let w1 := final (set_token jwt w) in
        match py_get (from_option (dict_get d "user") (JObj [])) "userId" with
        | Raise e => Run (Raise e) w1 []
        | Ok uid =>
            let w2 := final (set_user_id uid w1) in
            Run (Ok tt)
              (with_mark (if (truthy jwt && truthy uid)%bool then Success
                          else Failure "Missing token or userId in response")
                 w2) []
        end
    | Decodes v =>
        Run (Raise (Exn AttributeError
                      ("'" ++ type_name v ++ "' object has no attribute 'get'")))
          w []
    end.
Proof.
  unfold read_login_response, response_json.
  destruct (body r) as [v | why]; [ | reflexivity ].
  destruct v as [ | b | n | s | l | d ]; try reflexivity.
  cbn. unfold bind. cbn.
  destruct (py_get (from_option (dict_get d "user") (JObj [])) "userId")
    as [uid | e]; cbn; [ | reflexivity ].
  destruct (truthy (from_option (dict_get d "jwtToken") JNull) && truthy uid)%bool;
    reflexivity.
Qed.

Lemma login_block_200 (r : response) (w : world) :
  status_code r = 200 ->
  login_block r w
  = Run (Ok tt)
      match body r with
      | Undecodable why =>
          with_mark (Failure ("Invalid JSON response: " ++ why)) w
      | Decodes (JObj d) =>
          let jwt := from_option (dict_get d "jwtToken") JNull in
          let w1 := final (set_token jwt w) in
          match from_option (dict_get d "user") (JObj []) with
          | JObj ud =>
              let uid := from_option (dict_get ud "userId") JNull in
              with_mark
                (if (truthy jwt && truthy uid)%bool then Success
                 else Failure "Missing token or userId in response")
                (final (set_user_id uid w1))
          | u =>
              with_mark
                (Failure ("Invalid JSON response: '" ++ type_name u
                          ++ "' object has no attribute 'get'")) w1
          end
      | Decodes v =>
          with_mark
            (Failure ("Invalid JSON response: '" ++ type_name v
                      ++ "' object has no attribute 'get'")) w
      end [].
Proof.
  intros E. unfold login_block. rewrite E. cbn.
  unfold try_except. rewrite read_login_response_run.
  destruct (body r) as [v | why]; [ | reflexivity ].
  destruct v as [ | b | n | s | l | d ]; try reflexivity.
  cbn. destruct (from_option (dict_get d "user") (JObj []))
    as [ | b | n | s | l | ud ]; reflexivity.
Qed.

Lemma login_block_other (r : response) (w : world) :
  status_code r <> 200 ->
  exists msg, login_block r w = Run (Ok tt) (with_mark (Failure msg) w) [].
Proof.
  intros N. unfold login_block.
  destruct (status_code r =? 0); [ eexists; reflexivity | ].
  destruct (Z.eqb_spec (status_code r) 200) as [E | _]; [ contradiction | ].
  destruct (status_code r =? 401); [ eexists; reflexivity | ].
  destruct (status_code r =? 404); eexists; reflexivity.
Qed.

Lemma login_block_returns (r : response) (w : world) :
  outcome (login_block r w) = Ok tt /\ emitted (login_block r w) = [].
Proof.
  destruct (Z.eq_dec (status_code r) 200) as [E | N].
  - rewrite (login_block_200 _ _ E). split; reflexivity.
  - destruct (login_block_other r w N) as [msg ->]. split; reflexivity.
Qed.

(** [authenticate], reply by reply. *)
Lemma authenticate_run (w : world) :
  authenticate w
  = match backend w (requests w) with
    | Fault e =>
        Run (Ok tt) (next_request w)
          [Event (login_request (self w)) (Fault e) Unmarked]
    | Answer r =>
        Run (Ok tt) (final (login_block r (next_request w)))
          [Event (login_request (self w)) (Answer r)
             (manual_result (final (login_block r (next_request w))))]
    end.
Proof.
  unfold authenticate, try_except, login_attempt, bind. cbn.
  fold (login_request (self w)).
  destruct (backend w (requests w)) as [r | e] eqn:B.
  - rewrite (with_response_answer _ _ _ _ B).
    destruct (login_block_returns r (next_request w)) as [-> ->].
    reflexivity.
  - rewrite (with_response_fault _ _ _ _ B). reflexivity.
Qed.

(** C4. Whenever the login response has status 200 and its JSON body lacks
    the [jwtToken] field or the [user.userId] field, [authenticate] marks
    the request a failure. *)
Theorem login_without_token_or_user_fails (w : world) (r : response) :
  backend w (requests w) = Answer r ->
  status_code r = 200 ->
  body_field r "jwtToken" = None \/ body_user_id r = None ->
  exists msg,
    emitted (authenticate w)
    = [Event (login_request (self w)) (Answer r) (Failure msg)].
Proof.
  intros B E L. rewrite authenticate_run, B. cbn.
  rewrite (login_block_200 _ _ E). cbn.
  unfold body_user_id, body_field in L.
  destruct (body r) as [v | why]; [ | eexists; reflexivity ].
  destruct v as [ | b | n | s | l | d ]; try (eexists; reflexivity).
  cbn in L.
  destruct (dict_get d "user") as [u | ] eqn:U; cbn.
  - destruct u as [ | b | n | s | l | ud ]; try (eexists; reflexivity).
    cbn in L. cbn.
    destruct L as [L | L]; rewrite L; cbn.
    + eexists; reflexivity.
    + rewrite andb_false_r. eexists; reflexivity.
  - rewrite andb_false_r. eexists; reflexivity.
Qed.

(** C3, as the code has it. After [authenticate] has run on a session
    without a token, the token is other than [None] only if the login
    response had status 200 and its JSON body held that token as a
    [jwtToken] field; the body need not hold a [user.userId]. *)
Theorem token_only_from_login_200 (w : world) :
  token (self w) = JNull ->
  token (self (final (authenticate w))) <> JNull ->
  exists r,
    backend w (requests w) = Answer r
    /\ status_code r = 200
    /\ body_field r "jwtToken" = Some (token (self (final (authenticate w)))).
Proof.
  intros T. rewrite authenticate_run.
  destruct (backend w (requests w)) as [r | e]; cbn;
    [ | intros N; contradiction ].
  destruct (Z.eq_dec (status_code r) 200) as [E | N].
  - rewrite (login_block_200 _ _ E). cbn.
    destruct (body r) as [v | why] eqn:B; [ | intros N; contradiction ].
    destruct v as [ | b | n | s | l | d ]; try (intros N; contradiction).
    cbn.
    assert (G : forall t, t <> JNull ->
                t = from_option (dict_get d "jwtToken") JNull ->
                dict_get d "jwtToken" = Some t).
    { intros t N ->. destruct (dict_get d "jwtToken");
        [ reflexivity | contradiction N; reflexivity ]. }
    destruct (from_option (dict_get d "user") (JObj []))
      as [ | b | n | s | l | ud ]; cbn;
      intros N; exists r; (split; [ reflexivity | ]);
      (split; [ exact E | ]); unfold body_field; rewrite B; cbn;
      apply G; (exact N || reflexivity).
  - destruct (login_block_other r (next_request w) N) as [msg ->]. cbn.
    intros N'. contradiction.
Qed.

(** C3 fails as stated: a 200 login answer that holds a [jwtToken] and no
    [user] is marked a failure, and the token is stored all the same. *)
Lemma token_stored_without_user_id :
  token (self (world_of fresh_session (always token_only))) = JNull
  /\ status_code token_only = 200
  /\ body_user_id token_only = None
  /\ token (self (final (authenticate
                           (world_of fresh_session (always token_only)))))
     = JStr "abc"
  /\ List.map ev_mark
       (emitted (authenticate (world_of fresh_session (always token_only))))
     = [Failure "Missing token or userId in response"].
Proof. repeat split. Qed.

(** C8, as the code has it. [authenticate] never propagates an exception.
    When an exception is raised while it runs on a session without a token,
    the token afterwards is the [jwtToken] of the response body, if the body
    is an object that has one, and [None] otherwise; [get_headers] then
    builds no [Authorization] header exactly when that token is falsy
    ([None], or an empty or zero [jwtToken]), and builds one when it is
    truthy. *)
Theorem authenticate_contains_exceptions (w : world) :
  outcome (authenticate w) = Ok tt
  /\ (token (self w) = JNull ->
      raises_in_authenticate w ->
      token (self (final (authenticate w))) = offered_token w
      /\ (header "Authorization"
            (get_headers (self (final (authenticate w)))) = None
          <-> truthy (offered_token w) = false)).
Proof.
  split.
  - rewrite authenticate_run. destruct (backend w (requests w)); reflexivity.
  - intros T R.
    assert (K : token (self (final (authenticate w))) = offered_token w).
    { revert R. unfold raises_in_authenticate, offered_token.
      rewrite authenticate_run.
      destruct (backend w (requests w)) as [r | e]; cbn;
        [ | intros _; exact T ].
      intros [E [e R]]. rewrite (login_block_200 _ _ E).
      rewrite read_login_response_run in R. unfold body_field. cbn.
      destruct (body r) as [v | why]; [ | exact T ].
      destruct v as [ | b | n | s | l | d ]; try exact T.
      cbn in R |- *.
      destruct (from_option (dict_get d "user") (JObj []))
        as [ | b | n | s | l | ud ]; cbn in R |- *;
        try reflexivity; discriminate. }
    split; [ exact K | ].
    rewrite authorization_header, K.
    destruct (truthy (offered_token w)); split;
      (discriminate || reflexivity).
Qed.

(** C8 fails as stated: reading the [userId] of a null [user] raises
    [AttributeError] after the token has been stored, and the next headers
    carry it. *)
Lemma token_kept_after_exception :
  raises_in_authenticate (world_of fresh_session (always null_user))
  /\ token (self (final (authenticate
                           (world_of fresh_session (always null_user)))))
     = JStr "abc"
  /\ header "Authorization"
       (get_headers (self (final (authenticate
                                    (world_of fresh_session
                                       (always null_user))))))
     = Some "Bearer abc".
Proof.
  split; [ | split; reflexivity ].
  cbn. split; [ reflexivity | ]. eexists. reflexivity.
Qed.

(** *** The account cache *)

Lemma get_user_accounts_cached (w : world) :
  cached (self w) ->
  get_user_accounts w = Run (Ok (accounts (self w))) w [].
Proof.
  intros [U A]. unfold get_user_accounts, bind. cbn. rewrite U, A.
  reflexivity.
Qed.

Lemma get_user_accounts_no_user (w : world) :
  truthy (user_id (self w)) = false ->
  get_user_accounts w = Run (Ok (JArr [])) w [].
Proof.
  intros U. unfold get_user_accounts, bind. cbn. rewrite U. reflexivity.
Qed.

Lemma accounts_block_200 (r : response) (w : world) :
  status_code r = 200 ->
  accounts_block r w
  = match body r with
    | Undecodable why =>
        Run (Ok (JArr [])) (with_mark (Failure "Invalid JSON response") w) []
    | Decodes v =>
        match py_len v with
        | Ok _ => Run (Ok v) (with_mark Success (final (set_accounts v w))) []
        | Raise e => Run (Raise e) (final (set_accounts v w)) []
        end
    end.
Proof.
  intros E. unfold accounts_block. rewrite E. cbn.
  unfold try_except, store_accounts, response_json.
  destruct (body r) as [v | why]; [ | reflexivity ].
  cbn. unfold bind. cbn. rewrite lift_run.
  destruct v; reflexivity.
Qed.

Lemma accounts_block_other (r : response) (w : world) :
  status_code r <> 200 ->
  exists msg,
    accounts_block r w = Run (Ok (JArr [])) (with_mark (Failure msg) w) [].
Proof.
  intros N. unfold accounts_block.
  destruct (status_code r =? 0); [ eexists; reflexivity | ].
  destruct (Z.eqb_spec (status_code r) 200) as [E | _]; [ contradiction | ].
  destruct (status_code r =? 401); [ eexists; reflexivity | ].
  destruct (status_code r =? 404); eexists; reflexivity.
Qed.

(** A call of [get_user_accounts] that goes to the backend. *)
Lemma get_user_accounts_fetch (w : world) :
  truthy (user_id (self w)) = true ->
  truthy (accounts (self w)) = false ->
  get_user_accounts w
  = match backend w (requests w) with
    | Fault e =>
        Run (Ok (JArr [])) (next_request w)
          [Event (accounts_request (self w)) (Fault e) Unmarked]
    | Answer r =>
        let b := accounts_block r (next_request w) in
        Run (Ok match outcome b with Ok v => v | Raise _ => JArr [] end)
          (final b)
          [Event (accounts_request (self w)) (Answer r)
             (manual_result (final b))]
    end.
Proof.
  intros U A. unfold get_user_accounts, bind. cbn. rewrite U, A. cbn.
  fold (accounts_request (self w)). unfold try_except.
  destruct (backend w (requests w)) as [r | e] eqn:B.
  - rewrite (with_response_answer _ _ _ _ B). cbn.
    assert (Q : emitted (accounts_block r (next_request w)) = []).
    { destruct (Z.eq_dec (status_code r) 200) as [E | N].
      - rewrite (accounts_block_200 _ _ E).
        destruct (body r) as [v | why]; [ | reflexivity ].
        destruct (py_len v); reflexivity.
      - destruct (accounts_block_other r (next_request w) N) as [msg ->].
        reflexivity. }
    rewrite Q.
    destruct (outcome (accounts_block r (next_request w))); reflexivity.
  - rewrite (with_response_fault _ _ _ _ B). reflexivity.
Qed.

(** Which computations leave a populated cache alone. *)

Lemma keeps_ret {A} (a : A) : keeps_cache (ret a).
Proof. intros w _. reflexivity. Qed.

Lemma keeps_raise {A} (e : exn) : keeps_cache (@raise A e).
Proof. intros w _. reflexivity. Qed.

Lemma keeps_lift {A} (r : result A) : keeps_cache (lift r).
Proof. intros w _. rewrite lift_run. reflexivity. Qed.

Lemma keeps_bind {A B} (m : M A) (f : A -> M B) :
  keeps_cache m -> (forall a, keeps_cache (f a)) -> keeps_cache (bind m f).
Proof.
  intros Km Kf w C. pose proof (Km w C) as E.
  destruct (outcome (m w)) as [a | e] eqn:O.
  - rewrite (bind_ok _ _ _ _ O). cbn. rewrite <- E. apply Kf.
    rewrite E. exact C.
  - rewrite (bind_raise _ _ _ _ O). cbn. exact E.
Qed.

Lemma keeps_try {A} (catches : exn -> bool) (m : M A) (h : exn -> M A) :
  keeps_cache m -> (forall e, keeps_cache (h e)) ->
  keeps_cache (try_except catches m h).
Proof.
  intros Km Kh w C. pose proof (Km w C) as E. unfold try_except.
  destruct (m w) as [[a | e] w1 ev1]; cbn in E |- *; [ exact E | ].
  destruct (catches e); cbn; [ | exact E ].
  pose proof (Kh e w1) as H. rewrite E in H. specialize (H C).
  destruct (h e w1); exact H.
Qed.

Lemma keeps_with_response {A} (rq : request) (block : response -> M A) :
  (forall r, keeps_cache (block r)) -> keeps_cache (with_response rq block).
Proof.
  intros K w C. destruct (backend w (requests w)) as [r | e] eqn:B.
  - rewrite (with_response_answer _ _ _ _ B). cbn.
    apply (K r (next_request w)). exact C.
  - rewrite (with_response_fault _ _ _ _ B). reflexivity.
Qed.

Lemma keeps_get_self : keeps_cache get_self.
Proof. intros w _. reflexivity. Qed.

Lemma keeps_success : keeps_cache success.
Proof. intros w _. reflexivity. Qed.

Lemma keeps_failure (msg : string) : keeps_cache (failure msg).
Proof. intros w _. reflexivity. Qed.

Lemma keeps_randbelow (n : nat) : keeps_cache (randbelow n).
Proof. intros w _. reflexivity. Qed.

Lemma keeps_random : keeps_cache random.
Proof. intros w _. reflexivity. Qed.

Lemma keeps_response_json (r : response) : keeps_cache (response_json r).
Proof. intros w _. unfold response_json. destruct (body r); reflexivity. Qed.

Lemma keeps_get_user_accounts : keeps_cache get_user_accounts.
Proof. intros w C. rewrite (get_user_accounts_cached _ C). reflexivity. Qed.

Lemma keeps_validate_response (r : response) (f : option string) :
  keeps_cache (validate_response r f).
Proof. intros w _. rewrite validate_response_run. reflexivity. Qed.

Lemma keeps_filterM (keep : json -> M bool) (l : list json) :
  (forall x, keeps_cache (keep x)) -> keeps_cache (filterM keep l).
Proof.
  intros K. induction l as [ | x r IH]; cbn.
  - apply keeps_ret.
  - apply keeps_bind; [ apply K | intros b ].
    apply keeps_bind; [ exact IH | intros rest; apply keeps_ret ].
Qed.

Create HintDb cache.
#[local] Hint Resolve keeps_ret keeps_raise keeps_lift keeps_get_self
  keeps_success keeps_failure keeps_randbelow keeps_random
  keeps_response_json keeps_get_user_accounts keeps_validate_response
  : cache.

(** Takes a composed computation apart, down to the steps listed in the
    hint database. *)
Ltac keeps :=
  repeat first
    [ solve [ auto with cache ]
    | apply keeps_bind; [ | intro ]
    | apply keeps_try; [ | intro ]
    | apply keeps_with_response; intro
    | apply keeps_filterM; intro
    | match goal with
      | |- keeps_cache (if ?b then _ else _) => destruct b
      | |- keeps_cache (match ?x with _ => _ end) => destruct x
      end ].

Lemma keeps_and_len (seq : json) (test : nat -> bool) :
  keeps_cache (and_len seq test).
Proof. unfold and_len. keeps. Qed.

Lemma keeps_random_choice (seq : json) : keeps_cache (random_choice seq).
Proof. unfold random_choice. keeps. Qed.

Lemma keeps_uniform (a b : Q) : keeps_cache (uniform a b).
Proof. unfold uniform. keeps. Qed.

Lemma keeps_other_accounts (a f : json) : keeps_cache (other_accounts a f).
Proof. unfold other_accounts. keeps. Qed.

#[local] Hint Resolve keeps_and_len keeps_random_choice keeps_uniform
  keeps_other_accounts : cache.

Lemma keeps_task (c : user_class) : keeps_cache (task c).
Proof.
  destruct c; cbn.
  - unfold browse_accounts, view_account_block. keeps.
  - unfold view_and_transfer, transfer_block, business_rejection. keeps.
  - unfold view_transaction_history, history_block, fallback_block. keeps.
Qed.

Lemma after_tasks_self (c : user_class) (n : nat) (w : world) :
  cached (self w) -> self (after_tasks c n w) = self w.
Proof.
  revert w. induction n as [ | k IH]; intros w C; [ reflexivity | ].
  cbn. pose proof (keeps_task c w C) as E.
  rewrite IH; [ exact E | rewrite E; exact C ].
Qed.

(** A call that returns something truthy leaves it in the cache. *)
Lemma get_user_accounts_stores (w : world) (v : json) :
  outcome (get_user_accounts w) = Ok v ->
  truthy v = true ->
  cached (self (final (get_user_accounts w)))
  /\ accounts (self (final (get_user_accounts w))) = v.
Proof.
  destruct (truthy (user_id (self w))) eqn:U.
  2:{ rewrite (get_user_accounts_no_user _ U). cbn.
      intros H. injection H as <-. discriminate. }
  destruct (truthy (accounts (self w))) eqn:A.
  { rewrite (get_user_accounts_cached w (conj U A)). cbn.
    intros H. injection H as <-. intros _. split; [ split | ]; auto. }
  rewrite (get_user_accounts_fetch _ U A).
  destruct (backend w (requests w)) as [r | e]; cbn.
  2:{ intros H. injection H as <-. discriminate. }
  destruct (Z.eq_dec (status_code r) 200) as [E | N].
  - rewrite (accounts_block_200 _ _ E).
    destruct (body r) as [x | why]; cbn.
    + destruct (py_len x); cbn; intros H; injection H as <-;
        [ | discriminate ].
      intros T. split; [ split; [ exact U | exact T ] | reflexivity ].
    + intros H. injection H as <-. discriminate.
  - destruct (accounts_block_other r (next_request w) N) as [msg ->]. cbn.
    intros H. injection H as <-. discriminate.
Qed.

(** C5. Once [get_user_accounts] has stored, and so returned, a non-empty
    account list, every later call in the session, after any number of runs
    of the task, returns that list and leaves the world as it is: it sends
    no request.  When the user id is unset it returns the empty list, and
    so it does when the fetch fails: connection failure, status other than
    200, or a body that is not JSON. *)
Theorem account_cache_spec (w : world) :
  (forall first rest c n,
     outcome (get_user_accounts w) = Ok (JArr (first :: rest)) ->
     get_user_accounts (after_tasks c n (final (get_user_accounts w)))
     = Run (Ok (JArr (first :: rest)))
         (after_tasks c n (final (get_user_accounts w))) [])
  /\ (truthy (user_id (self w)) = false ->
      get_user_accounts w = Run (Ok (JArr [])) w [])
  /\ (truthy (user_id (self w)) = true ->
      truthy (accounts (self w)) = false ->
      fetch_fails w ->
      outcome (get_user_accounts w) = Ok (JArr [])).
Proof.
  split; [ | split ].
  - intros first rest c n O.
    destruct (get_user_accounts_stores w _ O eq_refl) as [C A].
    pose proof (after_tasks_self c n _ C) as S.
    rewrite get_user_accounts_cached; rewrite S; [ | exact C ].
    rewrite A. reflexivity.
  - apply get_user_accounts_no_user.
  - intros U A F. rewrite (get_user_accounts_fetch _ U A).
    unfold fetch_fails in F.
    destruct (backend w (requests w)) as [r | e]; [ | reflexivity ].
    cbn. destruct (Z.eq_dec (status_code r) 200) as [E | N].
    + destruct F as [F | [why F]]; [ contradiction | ].
      rewrite (accounts_block_200 _ _ E), F. reflexivity.
    + destruct (accounts_block_other r (next_request w) N) as [msg ->].
      reflexivity.
Qed.

(** *** Tasks *)

Lemma get_user_accounts_total (w : world) :
  exists v,
    outcome (get_user_accounts w) = Ok v
    /\ forall ev, In ev (emitted (get_user_accounts w)) ->
               rq_name (ev_request ev) = "Account - Get User Accounts".
Proof.
  destruct (truthy (user_id (self w))) eqn:U.
  2:{ rewrite (get_user_accounts_no_user _ U). eexists.
      split; [ reflexivity | intros ev [] ]. }
  destruct (truthy (accounts (self w))) eqn:A.
  { rewrite (get_user_accounts_cached w (conj U A)). eexists.
    split; [ reflexivity | intros ev [] ]. }
  rewrite (get_user_accounts_fetch _ U A).
  destruct (backend w (requests w)) as [r | e]; cbn; eexists;
    (split; [ reflexivity | ]); intros ev [<- | []]; reflexivity.
Qed.

Lemma get_self_run (w : world) : get_self w = Run (Ok (self w)) w [].
Proof. reflexivity. Qed.

Lemma py_get_field (v x : json) (k : string) :
  py_get v k = Ok x -> truthy x = true -> field_of v k = Some x.
Proof.
  destruct v as [ | b | n | s | l | d ]; try discriminate. cbn.
  destruct (dict_get d k) as [y | ]; cbn; intros H; injection H as <-;
    [ reflexivity | discriminate ].
Qed.

Lemma differs_run (x from_account : json) (w : world) :
  (a <- lift (py_get x "accountno") ;;
   b <- lift (py_get from_account "accountno") ;;
   ret (py_ne a b)) w
  = Run match py_get x "accountno", py_get from_account "accountno" with
        | Ok a, Ok b => Ok (py_ne a b)
        | Ok _, Raise e => Raise e
        | Raise e, _ => Raise e
        end w [].
Proof.
  unfold bind. rewrite lift_run.
  destruct (py_get x "accountno"); [ | reflexivity ].
  rewrite lift_run.
  destruct (py_get from_account "accountno"); reflexivity.
Qed.

Lemma other_accounts_run (accounts from_account : json) (w : world) :
  final (other_accounts accounts from_account w) = w
  /\ emitted (other_accounts accounts from_account w) = [].
Proof.
  unfold other_accounts. rewrite bind_lift.
  destruct (py_iter accounts) as [l | e]; [ | split; reflexivity ].
  match goal with
  | |- context [filterM ?k l] => set (keep := k)
  end.
  destruct (filterM_pure keep l w) as [F E].
  { intros x w'. unfold keep. rewrite differs_run. split; reflexivity. }
  unfold bind.
  destruct (filterM keep l w) as [[kept | e] w1 ev1]; cbn in F, E |- *;
    subst; split; reflexivity.
Qed.


(** The accounts kept at line 326 are in the list and their number differs
    from the source's. *)
Lemma other_accounts_kept (l : list json) (from_account : json)
  (others : json) (w : world) :
  outcome (other_accounts (JArr l) from_account w) = Ok others ->
  exists kept,
    others = JArr kept
    /\ forall x, In x kept ->
         In x l
         /\ exists a b, py_get x "accountno" = Ok a
                     /\ py_get from_account "accountno" = Ok b
                     /\ py_ne a b = true.
Proof.
  unfold other_accounts. rewrite bind_lift.
  change (py_iter (JArr l)) with (Ok l). cbv iota.
  match goal with
  | |- context [filterM ?k l] => set (keep := k)
  end.
  destruct (outcome (filterM keep l w)) as [kept | e] eqn:F.
  - rewrite (bind_ok _ _ _ _ F). cbn. intros H. injection H as <-.
    exists kept. split; [ reflexivity | ]. intros y I.
    destruct (filterM_kept keep l kept w y) as [I1 K];
      [ | exact F | exact I | ].
    { intros z w'. unfold keep. rewrite differs_run. reflexivity. }
    split; [ exact I1 | ]. revert K. unfold keep. rewrite differs_run. cbn.
    destruct (py_get y "accountno") as [a | e]; [ | discriminate ].
    destruct (py_get from_account "accountno") as [b | e];
      [ | discriminate ].
    intros H. injection H as H. exists a, b. repeat split; exact H.
  - rewrite (bind_raise _ _ _ _ F). cbn. discriminate.
Qed.

(** The transfer block, status by status. *)
Lemma transfer_block_200 (r : response) (w : world) :
  status_code r = 200 ->
  transfer_block r w
  = Run (Ok tt)
      (with_mark (if status_refused r
                  then Failure "Transfer did not succeed" else Success) w)
      [].
Proof.
  intros E. unfold transfer_block. rewrite E. cbn.
  rewrite (bind_ok _ _ _ _ (f_equal outcome (validate_response_run _ _ _))).
  rewrite validate_response_run, E. cbn. unfold status_refused.
  destruct (field_refused "transactionStatus" r); reflexivity.
Qed.

Lemma transfer_block_400 (r : response) (w : world) :
  status_code r = 400 ->
  transfer_block r w
  = Run (Ok tt)
      (with_mark
         match body r with
         | Decodes v =>
             if (Str.contains "insufficient" (Str.lower (py_str v))
                 || Str.contains "balance" (Str.lower (py_str v)))%bool
             then Success
             else Failure ("Bad request: " ++ py_str v)
         | Undecodable _ => Failure "Bad request"
         end w) [].
Proof.
  intros E. unfold transfer_block. rewrite E. cbn.
  unfold business_rejection, try_except, response_json.
  destruct (body r) as [v | why]; [ | reflexivity ].
  cbn.
  destruct (Str.contains "insufficient" (Str.lower (py_str v))
            || Str.contains "balance" (Str.lower (py_str v)))%bool;
    reflexivity.
Qed.

Lemma transfer_block_quiet (r : response) (w : world) :
  emitted (transfer_block r w) = [].
Proof.
  destruct (Z.eq_dec (status_code r) 200) as [E | N200];
    [ rewrite (transfer_block_200 _ _ E); reflexivity | ].
  destruct (Z.eq_dec (status_code r) 400) as [E | N400];
    [ rewrite (transfer_block_400 _ _ E); reflexivity | ].
  unfold transfer_block.
  destruct (status_code r =? 0); [ reflexivity | ].
  destruct (Z.eqb_spec (status_code r) 200); [ contradiction | ].
  destruct (Z.eqb_spec (status_code r) 400); [ contradiction | ].
  destruct (status_code r =? 401); reflexivity.
Qed.

Lemma uniform_run (a b : Q) (w : world) :
  exists u, (0 <= u)%Q /\ (u < 1)%Q
            /\ uniform a b w = Run (Ok (a + (b - a) * u)%Q) (next_draw w) [].
Proof.
  exists ((entropy w (draws w) mod 9007199254740992) # 9007199254740992).
  pose proof (Z.mod_pos_bound (entropy w (draws w)) 9007199254740992
                eq_refl) as [L H].
  split; [ | split ].
  - unfold Qle. cbn. lia.
  - unfold Qlt. cbn. lia.
  - reflexivity.
Qed.

(** Every transfer request that [view_and_transfer] sends is one between
    two accounts of the fetched list. *)
Lemma transfer_events (w : world) (ev : event) :
  In ev (emitted (view_and_transfer w)) ->
  rq_name (ev_request ev) = transfer_name ->
  exists fetched,
    outcome (get_user_accounts w) = Ok fetched /\ transfer_event fetched ev.
Proof.
  intros H N. unfold view_and_transfer in H.
  destruct (get_user_accounts_total w) as (fetched & O & G).
  apply in_bind in H. destruct H as [H | (x & Ox & H)].
  { apply G in H. rewrite N in H. discriminate. }
  rewrite O in Ox. injection Ox as <-.
  exists fetched. split; [ exact O | ].
  set (w1 := final (get_user_accounts w)) in *.
  apply in_bind_quiet in H; [ | apply and_len_run ].
  destruct H as (enough & Oe & H).
  rewrite (proj1 (and_len_run _ _ _)) in H.
  destruct enough.
  2:{ apply in_bind in H. destruct H as [H | (x & _ & [])].
      destruct (get_user_accounts_total w1) as (v & _ & G1).
      apply G1 in H. rewrite N in H. discriminate. }
  apply and_len_true in Oe. destruct Oe as (T & n & L & Hn).
  apply Nat.leb_le in Hn.
  apply in_bind_quiet in H; [ | apply random_choice_run ].
  destruct H as (a & Oa & H).
  set (w2 := final (random_choice fetched w1)) in *.
  apply in_bind_quiet in H; [ | apply other_accounts_run ].
  destruct H as (others & Oo & H).
  rewrite (proj1 (other_accounts_run _ _ _)) in H.
  apply in_bind_quiet in H; [ | apply random_choice_run ].
  destruct H as (b & Ob & H).
  set (w3 := final (random_choice others w2)) in *.
  rewrite bind_lift in H.
  destruct (py_get a "accountno") as [fa | e] eqn:Fa; [ | destruct H ].
  rewrite bind_lift in H.
  destruct (py_get b "accountno") as [fb | e] eqn:Fb; [ | destruct H ].
  destruct (truthy fa) eqn:Ta; [ | destruct H ].
  destruct (truthy fb) eqn:Tb; [ | destruct H ].
  cbn [andb] in H.
  destruct (uniform_run 1 100 w3) as (u & U0 & U1 & Ur).
  rewrite (bind_ok _ _ _ _ (f_equal outcome Ur)) in H. rewrite Ur in H.
  cbn [outcome final emitted app] in H.
  rewrite (bind_ok _ _ _ _ (f_equal outcome (get_self_run _))) in H.
  rewrite get_self_run in H. cbn [outcome final emitted app] in H.
  (* the fetched value is a list: a string or a dict fails before *)
  destruct fetched as [ | ? | ? | s | l | d ]; try discriminate L.
  - (* a string: its characters have no [get] *)
    exfalso. revert Oo. unfold other_accounts. rewrite bind_lift.
    destruct s as [ | c s']; [ cbn in L; injection L as <-; lia | ].
    change (py_iter (JStr (String c s')))
      with (Ok (JStr (String c EmptyString) :: chars s')).
    cbv iota. erewrite bind_raise; [ discriminate | ].
    cbn [filterM]. erewrite bind_raise; [ reflexivity | ].
    rewrite differs_run. reflexivity.
  - cbn in L. injection L as <-.
    apply random_choice_list in Oa.
    destruct (other_accounts_kept _ _ _ _ Oo) as (kept & -> & K).
    apply random_choice_list in Ob.
    destruct (K b Ob) as (Ib & a' & b' & Ga & Gb & Ne).
    rewrite Fb in Ga. injection Ga as <-.
    rewrite Fa in Gb. injection Gb as <-.
    exists l, a, b, fa, fb, u, (next_request (next_draw w3)).
    split; [ reflexivity | ]. split; [ exact Hn | ].
    split; [ exact Oa | ]. split; [ exact Ib | ].
    split; [ apply py_get_field; assumption | ].
    split; [ apply py_get_field; assumption | ].
    split; [ exact Ne | ]. split; [ exact Ta | ]. split; [ exact Tb | ].
    split; [ exact U0 | ]. split; [ exact U1 | ].
    destruct (backend (next_draw w3) (requests (next_draw w3)))
      as [r | e] eqn:B.
    + rewrite (with_response_answer _ _ _ _ B) in H. cbn in H.
      rewrite transfer_block_quiet in H. destruct H as [<- | []].
      split; reflexivity.
    + rewrite (with_response_fault _ _ _ _ B) in H.
      destruct H as [<- | []]. split; reflexivity.
  - (* a dict has no item at an integer index *)
    exfalso. revert Oa. unfold random_choice. rewrite bind_lift. cbn.
    destruct (Nat.eqb (List.length d) 0); [ discriminate | ].
    unfold bind. cbn. discriminate.
Qed.







(** *** Amounts *)

Lemma round_half_even_bounds (q : Q) (lo hi : Z) :
  (inject_Z lo <= q)%Q -> (q <= inject_Z hi)%Q ->
  lo <= round_half_even q <= hi.
Proof.
  unfold Qle, round_half_even. destruct q as [n d].
  cbn [Qnum Qden inject_Z]. intros L H.
  pose proof (Z.div_mod n (Zpos d) ltac:(lia)) as D.
  pose proof (Z.mod_pos_bound n (Zpos d) ltac:(lia)) as [R0 R1].
  assert (F0 : lo <= n / Zpos d) by (apply Z.div_le_lower_bound; lia).
  assert (F1 : n / Zpos d <= hi) by (apply Z.div_le_upper_bound; lia).
  destruct (2 * (n mod Zpos d) ?= Zpos d) eqn:C.
  - apply Z.compare_eq in C.
    destruct (Z.even (n / Zpos d)); [ lia | ].
    assert (n / Zpos d <> hi) by nia. lia.
  - lia.
  - apply Z.compare_gt_iff in C.
    assert (n / Zpos d <> hi) by nia. lia.
Qed.

(** [round(random.uniform(1.0, 100.0), 2)] is a number of hundredths
    between 1 and 100. *)
Lemma amount_bounds (u : Q) :
  (0 <= u)%Q -> (u < 1)%Q ->
  exists k : Z,
    py_round2 (1 + (100 - 1) * u) = k # 100 /\ 100 <= k <= 10000.
Proof.
  intros U0 U1. exists (round_half_even ((1 + (100 - 1) * u) * 100)).
  split; [ reflexivity | ].
  apply round_half_even_bounds.
  - change (inject_Z 100) with 100%Q. lra.
  - change (inject_Z 10000) with 10000%Q. lra.
Qed.

Lemma py_ne_int (m n : Z) : py_ne (JInt m) (JInt n) = true -> n <> m.
Proof.
  unfold py_ne. cbn. intros H <-. rewrite Z.eqb_refl in H. discriminate.
Qed.

(** C6. A transfer request is sent by [view_and_transfer] only when the
    fetched account list has at least 2 entries; its [fromAccount] and
    [toAccount] are the [accountno] of two entries of that list and differ
    (Python's [!=]; as integers they are different numbers), and its amount
    is a number of hundredths between 1 and 100. *)
Theorem transfer_request_spec (w : world) (ev : event) :
  In ev (emitted (view_and_transfer w)) ->
  rq_name (ev_request ev) = transfer_name ->
  exists (l : list json) (a b fa fb : json) (amount : Q)
         (headers : option header_map),
    outcome (get_user_accounts w) = Ok (JArr l)
    /\ (2 <= List.length l)%nat
    /\ ev_request ev
       = Request POST "/api/v1/account/transfer"
           (Some (TransferData fa fb amount "Test transfer from load test"))
           headers transfer_name
    /\ In a l /\ field_of a "accountno" = Some fa
    /\ In b l /\ field_of b "accountno" = Some fb
    /\ py_ne fb fa = true
    /\ (forall n m : Z, fa = JInt n -> fb = JInt m -> n <> m)
    /\ (1 <= amount)%Q /\ (amount <= 100)%Q
    /\ exists k : Z, amount = k # 100.
Proof.
  intros I N.
  destruct (transfer_events w ev I N) as (fetched & O & T).
  destruct T as (l & a & b & fa & fb & u & w' & T).
  destruct T as (-> & L & Ia & Ib & Fa & Fb & Ne & _ & _ & U0 & U1 & R & _).
  destruct (amount_bounds u U0 U1) as (k & K & K0 & K1).
  exists l, a, b, fa, fb, (py_round2 (1 + (100 - 1) * u)), 
    (Some (get_headers (self w'))).
  repeat (split; [ assumption | ]).
  split; [ intros n m -> ->; exact (py_ne_int _ _ Ne) | ].
  rewrite K. split; [ | split; [ | exists k; reflexivity ] ].
  - unfold Qle. cbn. lia.
  - unfold Qle. cbn. lia.
Qed.

(** *** The history fallback *)


Lemma fallback_block_run (r : response) (w : world) :
  fallback_block r w
  = Run (Ok tt)
      (with_mark (if ((status_code r =? 200) || (status_code r =? 404))%bool
                  then Success
                  else Failure ("Unexpected status: "
                                ++ Str.of_Z (status_code r))) w) [].
Proof.
  unfold fallback_block.
  destruct ((status_code r =? 200) || (status_code r =? 404))%bool;
    reflexivity.
Qed.


(** *** Sessions start without a token *)

Lemma bind_silent {A B} (m : M A) (f : A -> M B) (w w1 : world) (a : A) :
  m w = Run (Ok a) w1 [] -> bind m f w = f a w1.
Proof. unfold bind. intros ->. destruct (f a w1); reflexivity. Qed.

Lemma choice_of_credentials (w : world) :
  exists e p,
    random_choice TEST_CREDENTIALS w
    = Run (Ok (JObj [("email", JStr e); ("password", JStr p)]))
        (next_draw w) [].
Proof.
  unfold random_choice. rewrite bind_lift. cbn [TEST_CREDENTIALS py_len].
  match goal with
  | |- context [Nat.eqb ?n 0] => change (Nat.eqb n 0) with false
  end.
  cbv iota. unfold bind, randbelow.
  match goal with
  | |- context [Z.of_nat ?n] => change (Z.of_nat n) with 4
  end.
  pose proof (Z.mod_pos_bound (entropy w (draws w)) 4 eq_refl) as [L H].
  destruct (entropy w (draws w) mod 4) as [ | q | q ]; [ | | lia ].
  - do 2 eexists. reflexivity.
  - destruct q as [ q | q | ]; try destruct q; try lia;
      do 2 eexists; reflexivity.
Qed.

(** [on_start] runs [authenticate] on a session without token, user id or
    accounts. *)
Lemma on_start_run (w : world) :
  exists e p,
    on_start w
    = authenticate
        (World (Session (JStr e) (JStr p) JNull JNull (JArr [])) (backend w)
           (entropy w) (requests w) (S (draws w)) (manual_result w)).
Proof.
  unfold on_start.
  rewrite (bind_silent _ _ _ _ _ eq_refl).
  rewrite (bind_silent _ _ _ _ _ eq_refl).
  rewrite (bind_silent _ _ _ _ _ eq_refl).
  set (w0 := with_self _ (with_self _ (with_self _ w))).
  destruct (choice_of_credentials w0) as (e & p & C).
  exists e, p.
  rewrite (bind_silent _ _ _ _ _ C).
  rewrite (bind_silent _ _ _ _ _ eq_refl).
  rewrite (bind_silent _ _ _ _ _ eq_refl).
  rewrite (bind_silent _ _ _ _ _ eq_refl).
  rewrite (bind_silent _ _ _ _ _ eq_refl).
  reflexivity.
Qed.

(** *** The properties at sample sessions *)

Lemma validate_response_spec_witness :
  (status_code not_json = 200
   /\ validate_response not_json (Some "transactionStatus")
        (world_of two_accounts (always not_json))
      = Run (Ok true) (world_of two_accounts (always not_json)) [])
  /\ (status_code no_status = 200
      /\ field_of (JObj []) "transactionStatus" = None
      /\ validate_response no_status (Some "transactionStatus")
           (world_of two_accounts (always no_status))
         = Run (Ok true) (world_of two_accounts (always no_status)) [])
  /\ (outcome (validate_response failed_status (Some "transactionStatus")
                 (world_of two_accounts (always failed_status))) = Ok false
      /\ (status_code failed_status <> 200
          \/ exists k x,
               Some "transactionStatus" = Some k
               /\ body_field failed_status k = Some x /\ truthy x = true
               /\ Str.contains "SUCCESS" (Str.upper (py_str x)) = false)).
Proof.
  split; [ | split ].
  - split; [ reflexivity | ].
    exact (proj1 (proj1 (validate_response_spec not_json
                           (Some "transactionStatus")
                           (world_of two_accounts (always not_json)))
                    eq_refl) _ eq_refl).
  - split; [ reflexivity | ]. split; [ reflexivity | ].
    exact (proj2 (proj1 (validate_response_spec no_status
                           (Some "transactionStatus")
                           (world_of two_accounts (always no_status)))
                    eq_refl) "transactionStatus" (JObj []) eq_refl eq_refl I).
  - split; [ reflexivity | ].
    exact (proj2 (validate_response_spec failed_status
                    (Some "transactionStatus")
                    (world_of two_accounts (always failed_status)))
             eq_refl).
Defined.

Lemma login_without_token_or_user_fails_witness :
  backend (world_of fresh_session (always token_only))
    (requests (world_of fresh_session (always token_only)))
  = Answer token_only
  /\ status_code token_only = 200
  /\ (body_field token_only "jwtToken" = None
      \/ body_user_id token_only = None)
  /\ exists msg,
       emitted (authenticate (world_of fresh_session (always token_only)))
       = [Event (login_request fresh_session) (Answer token_only)
            (Failure msg)].
Proof.
  split; [ reflexivity | ]. split; [ reflexivity | ].
  split; [ right; reflexivity | ].
  exact (login_without_token_or_user_fails
           (world_of fresh_session (always token_only)) token_only
           eq_refl eq_refl (or_intror eq_refl)).
Defined.

Lemma token_only_from_login_200_witness :
  token (self (world_of fresh_session (always token_only))) = JNull
  /\ token (self (final (authenticate
                           (world_of fresh_session (always token_only)))))
     <> JNull
  /\ exists r,
       backend (world_of fresh_session (always token_only))
         (requests (world_of fresh_session (always token_only))) = Answer r
       /\ status_code r = 200
       /\ body_field r "jwtToken"
          = Some (token (self (final (authenticate
                                        (world_of fresh_session
                                           (always token_only)))))).
Proof.
  split; [ reflexivity | ]. split; [ discriminate | ].
  apply (token_only_from_login_200
           (world_of fresh_session (always token_only)));
    [ reflexivity | discriminate ].
Defined.

Lemma authenticate_contains_exceptions_witness :
  (token (self (world_of fresh_session (always not_json))) = JNull
   /\ raises_in_authenticate (world_of fresh_session (always not_json))
   /\ outcome (authenticate (world_of fresh_session (always not_json)))
      = Ok tt
   /\ token (self (final (authenticate
                            (world_of fresh_session (always not_json)))))
      = JNull
   /\ header "Authorization"
        (get_headers (self (final (authenticate
                                     (world_of fresh_session
                                        (always not_json))))))
      = None)
  /\ (raises_in_authenticate (world_of fresh_session (always empty_token))
      /\ token (self (final (authenticate
                               (world_of fresh_session
                                  (always empty_token)))))
         = JStr ""
      /\ header "Authorization"
           (get_headers (self (final (authenticate
                                        (world_of fresh_session
                                           (always empty_token))))))
         = None).
Proof.
  split.
  - assert (R : raises_in_authenticate
                  (world_of fresh_session (always not_json))).
    { split; [ reflexivity | ]. eexists. reflexivity. }
    pose proof (authenticate_contains_exceptions
                  (world_of fresh_session (always not_json))) as [O K].
    destruct (K eq_refl R) as [T H].
    split; [ reflexivity | ]. split; [ exact R | ]. split; [ exact O | ].
    split; [ exact T | ]. exact (proj2 H eq_refl).
  - assert (R : raises_in_authenticate
                  (world_of fresh_session (always empty_token))).
    { split; [ reflexivity | ]. eexists. reflexivity. }
    pose proof (authenticate_contains_exceptions
                  (world_of fresh_session (always empty_token))) as [O K].
    destruct (K eq_refl R) as [T H].
    split; [ exact R | ]. split; [ exact T | ]. exact (proj2 H eq_refl).
Defined.

Lemma account_cache_spec_witness :
  (outcome (get_user_accounts (world_of no_accounts (always account_list)))
   = Ok (JArr [account 11; account 12])
   /\ get_user_accounts
        (after_tasks ActiveUser 2
           (final (get_user_accounts
                     (world_of no_accounts (always account_list)))))
      = Run (Ok (JArr [account 11; account 12]))
          (after_tasks ActiveUser 2
             (final (get_user_accounts
                       (world_of no_accounts (always account_list))))) [])
  /\ (truthy (user_id (self (world_of fresh_session (always account_list))))
      = false
      /\ get_user_accounts (world_of fresh_session (always account_list))
         = Run (Ok (JArr [])) (world_of fresh_session (always account_list))
             [])
  /\ (truthy (user_id (self (world_of no_accounts (always not_found)))) = true
      /\ truthy (accounts (self (world_of no_accounts (always not_found))))
         = false
      /\ fetch_fails (world_of no_accounts (always not_found))
      /\ outcome (get_user_accounts (world_of no_accounts (always not_found)))
         = Ok (JArr [])).
Proof.
  split; [ | split ].
  - split; [ reflexivity | ].
    exact (proj1 (account_cache_spec
                    (world_of no_accounts (always account_list)))
             (account 11) [account 12] ActiveUser 2%nat eq_refl).
  - split; [ reflexivity | ].
    exact (proj1 (proj2 (account_cache_spec
                           (world_of fresh_session (always account_list))))
             eq_refl).
  - assert (F : fetch_fails (world_of no_accounts (always not_found))).
    { left. discriminate. }
    split; [ reflexivity | ]. split; [ reflexivity | ]. split; [ exact F | ].
    exact (proj2 (proj2 (account_cache_spec
                           (world_of no_accounts (always not_found))))
             eq_refl eq_refl F).
Defined.



Lemma transfer_request_spec_witness :
  In (sample_transfer no_status Success)
    (emitted (view_and_transfer (world_of two_accounts (always no_status))))
  /\ rq_name (ev_request (sample_transfer no_status Success)) = transfer_name
  /\ exists (l : list json) (a b fa fb : json) (amount : Q)
            (headers : option header_map),
       outcome (get_user_accounts
                  (world_of two_accounts (always no_status)))
       = Ok (JArr l)
       /\ (2 <= List.length l)%nat
       /\ ev_request (sample_transfer no_status Success)
          = Request POST "/api/v1/account/transfer"
              (Some (TransferData fa fb amount
                       "Test transfer from load test"))
              headers transfer_name
       /\ In a l /\ field_of a "accountno" = Some fa
       /\ In b l /\ field_of b "accountno" = Some fb
       /\ py_ne fb fa = true
       /\ (forall n m : Z, fa = JInt n -> fb = JInt m -> n <> m)
       /\ (1 <= amount)%Q /\ (amount <= 100)%Q
       /\ exists k : Z, amount = k # 100.
Proof.
  assert (I : In (sample_transfer no_status Success)
                (emitted (view_and_transfer
                            (world_of two_accounts (always no_status))))).
  { left. reflexivity. }
  split; [ exact I | ]. split; [ reflexivity | ].
  exact (transfer_request_spec _ _ I eq_refl).
Defined.


Lemma get_headers_spec_witness :
  truthy (token two_accounts) = true
  /\ str_exact (token two_accounts) = true
  /\ header "Authorization" (get_headers two_accounts) = Some "Bearer abc"
  /\ (token two_accounts <> JNull /\ token two_accounts <> JStr "")
  /\ (truthy (token zero_token) = false
      /\ header "Authorization" (get_headers zero_token) = None)
  /\ ((token two_accounts = JNull \/ token two_accounts = JStr "abc")
      /\ (truthy (token two_accounts) = true
          <-> token two_accounts <> JNull /\ token two_accounts <> JStr "")).
Proof.
  destruct (get_headers_spec two_accounts) as (_ & _ & V & N & S).
  split; [ reflexivity | ]. split; [ reflexivity | ].
  split; [ exact (V eq_refl eq_refl) | ].
  split; [ exact (N eq_refl) | ].
  split.
  - split; [ reflexivity | ].
    exact (proj2 (proj1 (proj2 (get_headers_spec zero_token))) eq_refl).
  - split; [ right; reflexivity | ].
    exact (S "abc" (or_intror eq_refl)).
Defined.

(** *** Rules of the logic of runs *)

Lemma triple_ret {A} (I : session -> Prop) (a : A) (Q : A -> Prop)
  (P : event -> Prop) :
  Q a -> triple I (ret a) Q P.
Proof.
  intros H w Hi. split; [ exact Hi | ]. split; [ intros ev [] | ].
  cbn. intros b E. injection E as <-. exact H.
Qed.

Lemma triple_raise {A} (I : session -> Prop) (e : exn) (Q : A -> Prop)
  (P : event -> Prop) :
  triple I (@raise A e) Q P.
Proof.
  intros w Hi. split; [ exact Hi | ]. split; [ intros ev [] | ].
  cbn. discriminate.
Qed.

Lemma triple_lift {A} (I : session -> Prop) (r : result A) (Q : A -> Prop)
  (P : event -> Prop) :
  (forall a, r = Ok a -> Q a) -> triple I (lift r) Q P.
Proof.
  intros H w Hi. rewrite lift_run. split; [ exact Hi | ].
  split; [ intros ev [] | exact H ].
Qed.

Lemma triple_bind {A B} (I : session -> Prop) (m : M A) (f : A -> M B)
  (Q : A -> Prop) (Q' : B -> Prop) (P : event -> Prop) :
  triple I m Q P ->
  (forall a, Q a -> triple I (f a) Q' P) ->
  triple I (bind m f) Q' P.
Proof.
  intros Hm Hf w Hi. destruct (Hm w Hi) as (Im & Pm & Qm).
  destruct (outcome (m w)) as [a | e] eqn:O.
  - rewrite (bind_ok _ _ _ _ O). cbn.
    destruct (Hf a (Qm a eq_refl) (final (m w)) Im) as (If & Pf & Qf).
    split; [ exact If | ]. split; [ | exact Qf ].
    intros ev H. apply in_app_or in H. destruct H as [H | H]; auto.
  - rewrite (bind_raise _ _ _ _ O). cbn.
    split; [ exact Im | ]. split; [ exact Pm | discriminate ].
Qed.

Lemma triple_try {A} (I : session -> Prop) (catches : exn -> bool)
  (m : M A) (h : exn -> M A) (Q : A -> Prop) (P : event -> Prop) :
  triple I m Q P ->
  (forall e, triple I (h e) Q P) ->
  triple I (try_except catches m h) Q P.
Proof.
  intros Hm Hh w Hi. destruct (Hm w Hi) as (Im & Pm & Qm).
  unfold try_except.
  destruct (m w) as [[a | e] w1 ev1]; cbn in Im, Pm, Qm |- *.
  - split; [ exact Im | ]. split; [ exact Pm | exact Qm ].
  - destruct (catches e); cbn.
    + destruct (Hh e w1 Im) as (Ih & Ph & Qh).
      destruct (h e w1) as [o w2 ev2]; cbn in Ih, Ph, Qh |- *.
      split; [ exact Ih | ]. split; [ | exact Qh ].
      intros ev H. apply in_app_or in H. destruct H as [H | H]; auto.
    + split; [ exact Im | ]. split; [ exact Pm | discriminate ].
Qed.

Lemma triple_weaken {A} (I : session -> Prop) (m : M A) (Q Q' : A -> Prop)
  (P : event -> Prop) :
  triple I m Q P -> (forall a, Q a -> Q' a) -> triple I m Q' P.
Proof.
  intros Hm H w Hi. destruct (Hm w Hi) as (Im & Pm & Qm).
  split; [ exact Im | ]. split; [ exact Pm | ]. intros a O. auto.
Qed.

Lemma triple_get_self (I : session -> Prop) (P : event -> Prop) :
  triple I get_self I P.
Proof.
  intros w Hi. split; [ exact Hi | ]. split; [ intros ev [] | ].
  cbn. intros s E. injection E as <-. exact Hi.
Qed.

(** A computation that sends nothing and leaves the session object alone
    fits every invariant. *)
Lemma triple_still {A} (I : session -> Prop) (m : M A) (P : event -> Prop) :
  (forall w, self (final (m w)) = self w /\ emitted (m w) = []) ->
  triple I m (fun _ => True) P.
Proof.
  intros H w Hi. destruct (H w) as [S E]. rewrite S, E.
  split; [ exact Hi | ]. split; [ intros ev [] | trivial ].
Qed.

Lemma triple_with_response (I : session -> Prop) (rq : request)
  (block : response -> M unit) (V : response -> mark -> Prop)
  (P : event -> Prop) :
  block_marks block V ->
  (forall r m, V r m -> P (Event rq (Answer r) m)) ->
  (forall e, P (Event rq (Fault e) Unmarked)) ->
  triple I (with_response rq block) (fun _ => True) P.
Proof.
  intros Hb Ha Hf w Hi.
  destruct (backend w (requests w)) as [r | e] eqn:B.
  - rewrite (with_response_answer _ _ _ _ B). cbn.
    destruct (Hb r (next_request w)) as (S & E & _ & Hv).
    rewrite S, E. split; [ exact Hi | ]. split; [ | trivial ].
    intros ev [<- | []]. apply Ha. exact Hv.
  - rewrite (with_response_fault _ _ _ _ B). cbn.
    split; [ exact Hi | ]. split; [ | trivial ].
    intros ev [<- | []]. apply Hf.
Qed.

(** *** What each block reports *)

Lemma view_account_block_marks :
  block_marks view_account_block
    (fun r m => if status_code r =? 200 then m = Success
                else exists msg, m = Failure msg).
Proof.
  intros r w. unfold view_account_block.
  destruct (Z.eqb_spec (status_code r) 0) as [E0 | _].
  { rewrite E0. cbn. repeat split. eexists. reflexivity. }
  destruct (Z.eqb_spec (status_code r) 200) as [E | _].
  { rewrite (bind_silent _ _ _ _ _ (validate_response_run _ _ _)), E. cbn.
    repeat split. }
  destruct (status_code r =? 401); [ cbn; repeat split; eexists; reflexivity | ].
  destruct (status_code r =? 404); cbn; repeat split; eexists; reflexivity.
Qed.

Lemma history_block_marks :
  block_marks history_block
    (fun r m =>
       if status_code r =? 200 then
         match body r with
         | Decodes v =>
             m = if is_list v then Success
                 else Failure "Invalid response format - expected list"
         | Undecodable _ => m = Failure "Invalid JSON response"
         end
       else exists msg, m = Failure msg).
Proof.
  intros r w. unfold history_block.
  destruct (Z.eqb_spec (status_code r) 0) as [E0 | _].
  { rewrite E0. cbn. repeat split. eexists. reflexivity. }
  destruct (Z.eqb_spec (status_code r) 200) as [E | _].
  { unfold try_except, response_json.
    destruct (body r) as [v | why]; cbn; [ | repeat split ].
    destruct (is_list v); cbn; repeat split. }
  destruct (status_code r =? 401); [ cbn; repeat split; eexists; reflexivity | ].
  destruct (status_code r =? 404); cbn; repeat split; eexists; reflexivity.
Qed.

Lemma transfer_block_marks :
  block_marks transfer_block
    (fun r m =>
       if status_code r =? 200 then
         m = if status_refused r then Failure "Transfer did not succeed"
             else Success
       else if status_code r =? 400 then
         m = match body r with
             | Decodes v =>
                 if (Str.contains "insufficient" (Str.lower (py_str v))
                     || Str.contains "balance" (Str.lower (py_str v)))%bool
                 then Success
                 else Failure ("Bad request: " ++ py_str v)
             | Undecodable _ => Failure "Bad request"
             end
       else exists msg, m = Failure msg).
Proof.
  intros r w.
  destruct (Z.eqb_spec (status_code r) 200) as [E | N200].
  { rewrite (transfer_block_200 _ _ E). repeat split. }
  destruct (Z.eqb_spec (status_code r) 400) as [E | N400].
  { rewrite (transfer_block_400 _ _ E). repeat split. }
  unfold transfer_block.
  destruct (status_code r =? 0); [ cbn; repeat split; eexists; reflexivity | ].
  destruct (Z.eqb_spec (status_code r) 200); [ contradiction | ].
  destruct (Z.eqb_spec (status_code r) 400); [ contradiction | ].
  destruct (status_code r =? 401); cbn; repeat split; eexists; reflexivity.
Qed.

Lemma fallback_block_marks :
  block_marks fallback_block
    (fun r m =>
       m = if ((status_code r =? 200) || (status_code r =? 404))%bool
           then Success
           else Failure ("Unexpected status: " ++ Str.of_Z (status_code r))).
Proof. intros r w. rewrite fallback_block_run. repeat split. Qed.

(** The fetch of the account list under an invariant that does not look at
    the cache. *)
Lemma triple_get_user_accounts (I : session -> Prop) (P : event -> Prop) :
  accounts_blind I ->
  (forall s a m,
     I s -> fetch_mark a m -> P (Event (accounts_request s) a m)) ->
  triple I get_user_accounts (fun _ => True) P.
Proof.
  intros Blind Hp w Hi.
  destruct (truthy (user_id (self w))) eqn:U.
  2:{ rewrite (get_user_accounts_no_user _ U).
      split; [ exact Hi | ]. split; [ intros ev [] | trivial ]. }
  destruct (truthy (accounts (self w))) eqn:A.
  { rewrite (get_user_accounts_cached w (conj U A)).
    split; [ exact Hi | ]. split; [ intros ev [] | trivial ]. }
  rewrite (get_user_accounts_fetch _ U A).
  destruct (backend w (requests w)) as [r | e]; cbn.
  2:{ split; [ exact Hi | ]. split; [ | trivial ].
      intros ev [<- | []]. apply Hp; [ exact Hi | reflexivity ]. }
  destruct (Z.eqb_spec (status_code r) 200) as [E | N].
  - rewrite (accounts_block_200 _ _ E).
    assert (F : forall m,
               match body r with
               | Decodes v => match py_len v with
                              | Ok _ => m = Success
                              | Raise _ => m = Unmarked
                              end
               | Undecodable _ => m = Failure "Invalid JSON response"
               end -> fetch_mark (Answer r) m).
    { intros m H. unfold fetch_mark. rewrite E. exact H. }
    destruct (body r) as [v | why]; cbn.
    + destruct (py_len v); cbn;
        (split; [ apply (Blind _ v Hi) | ]); (split; [ | trivial ]);
        intros ev [<- | []]; apply Hp; try exact Hi; apply F; reflexivity.
    + split; [ exact Hi | ]. split; [ | trivial ].
      intros ev [<- | []]. apply Hp; [ exact Hi | apply F; reflexivity ].
  - destruct (accounts_block_other r (next_request w) N) as [msg ->]. cbn.
    split; [ exact Hi | ]. split; [ | trivial ].
    intros ev [<- | []]. apply Hp; [ exact Hi | ].
    unfold fetch_mark. destruct (Z.eqb_spec (status_code r) 200);
      [ contradiction | ]. exists msg. reflexivity.
Qed.

(** *** Every task, judged *)

Lemma get_headers_same_login (s0 s : session) :
  same_login s0 s -> get_headers s = get_headers s0.
Proof. intros (_ & _ & T & _). unfold get_headers. rewrite T. reflexivity. Qed.

Lemma same_login_blind (s0 : session) : accounts_blind (same_login s0).
Proof. intros s v H. exact H. Qed.

Lemma sound_fetch (rq : request) (a : reply) (m : mark) :
  fetch_mark a m -> sound_report (Event rq a m).
Proof.
  unfold fetch_mark, sound_report. cbn. destruct a as [r | e]; [ | auto ].
  destruct (Z.eqb_spec (status_code r) 200) as [E | N].
  - intros H. split; [ intros E0; rewrite E0 in E; discriminate | ].
    intros _. left. exact E.
  - intros [msg ->]. split; [ intros _; exists msg; reflexivity | ].
    discriminate.
Qed.

Lemma sound_200_only (rq : request) (r : response) (m : mark) :
  (if status_code r =? 200 then m = Success \/ (exists msg, m = Failure msg)
   else exists msg, m = Failure msg) ->
  sound_report (Event rq (Answer r) m).
Proof.
  unfold sound_report. cbn.
  destruct (Z.eqb_spec (status_code r) 200) as [E | N].
  - intros H. split.
    + intros E0. rewrite E0 in E. discriminate.
    + intros _. left. exact E.
  - intros [msg ->]. split; [ intros _; exists msg; reflexivity | ].
    discriminate.
Qed.

Lemma still_and_len (seq : json) (test : nat -> bool) (w : world) :
  self (final (and_len seq test w)) = self w
  /\ emitted (and_len seq test w) = [].
Proof. destruct (and_len_run seq test w) as [-> ->]. split; reflexivity. Qed.

Lemma still_random_choice (seq : json) (w : world) :
  self (final (random_choice seq w)) = self w
  /\ emitted (random_choice seq w) = [].
Proof.
  destruct (random_choice_run seq w) as (E & S & _). split; assumption.
Qed.

Lemma still_other_accounts (a f : json) (w : world) :
  self (final (other_accounts a f w)) = self w
  /\ emitted (other_accounts a f w) = [].
Proof. destruct (other_accounts_run a f w) as [-> ->]. split; reflexivity. Qed.

Lemma still_uniform (a b : Q) (w : world) :
  self (final (uniform a b w)) = self w /\ emitted (uniform a b w) = [].
Proof. destruct (uniform_run a b w) as (u & _ & _ & ->). split; reflexivity. Qed.

Lemma still_lift {A} (r : result A) (w : world) :
  self (final (lift r w)) = self w /\ emitted (lift r w) = [].
Proof. rewrite lift_run. split; reflexivity. Qed.

(** Steps through a task: the fetch, the steps that send nothing, the
    branches, down to its [with] block. *)
Ltac judge s0 :=
  repeat first
    [ apply triple_ret; exact I
    | eapply triple_bind;
      [ apply triple_get_user_accounts; [ apply same_login_blind | ]
      | intros ? _ ]
    | eapply triple_bind; [ apply triple_get_self | intros ? ? ]
    | eapply triple_bind;
      [ apply triple_still; intros;
        first [ apply still_and_len | apply still_random_choice
              | apply still_other_accounts | apply still_uniform
              | apply still_lift ]
      | intros ? _ ]
    | match goal with
      | |- triple _ (if ?b then _ else _) _ _ => destruct b
      end ].

Lemma task_triple (c : user_class) (s0 : session) :
  triple (same_login s0) (task c) (fun _ => True) (task_report c s0).
Proof.
  assert (F : forall s a m,
             same_login s0 s -> fetch_mark a m ->
             task_report c s0 (Event (accounts_request s) a m)).
  { intros s a m L H. split; [ exact (sound_fetch _ _ _ H) | ].
    split; [ | left; reflexivity ].
    unfold carries_headers. cbn. rewrite (get_headers_same_login _ _ L).
    reflexivity. }
  destruct c; cbn [task].
  - unfold browse_accounts. judge s0; try exact F.
    match goal with H : same_login s0 _ |- _ => rename H into L end.
    eapply triple_with_response; [ apply view_account_block_marks | | ].
    + intros r m V. cbv beta in V. split; [ apply sound_200_only | ].
      * destruct (status_code r =? 200); [ left; exact V | exact V ].
      * split; [ | right; reflexivity ].
        unfold carries_headers. cbn.
        rewrite (get_headers_same_login _ _ L). reflexivity.
    + intros e. split; [ reflexivity | ].
      split; [ | right; reflexivity ].
      unfold carries_headers. cbn.
      rewrite (get_headers_same_login _ _ L). reflexivity.
  - unfold view_and_transfer. judge s0; try exact F.
    match goal with H : same_login s0 _ |- _ => rename H into L end.
    eapply triple_with_response; [ apply transfer_block_marks | | ].
    + intros r m V. cbv beta in V. split; [ | split; [ | right; reflexivity ] ].
      * unfold sound_report. cbn.
        destruct (Z.eqb_spec (status_code r) 200) as [E | N200].
        { split; [ intros E0; rewrite E0 in E; discriminate | ].
          intros _. left. exact E. }
        destruct (Z.eqb_spec (status_code r) 400) as [E | N400].
        { split; [ intros E0; rewrite E0 in E; discriminate | ].
          intros _. right. left. split; [ exact E | reflexivity ]. }
        destruct V as [msg ->].
        split; [ intros _; exists msg; reflexivity | discriminate ].
      * unfold carries_headers. cbn.
        rewrite (get_headers_same_login _ _ L). reflexivity.
    + intros e. split; [ reflexivity | ].
      split; [ | right; reflexivity ].
      unfold carries_headers. cbn.
      rewrite (get_headers_same_login _ _ L). reflexivity.
  - unfold view_transaction_history. judge s0; try exact F.
    + match goal with H : same_login s0 _ |- _ => rename H into L end.
      eapply triple_with_response; [ apply history_block_marks | | ].
      * intros r m V. cbv beta in V. split; [ apply sound_200_only | ].
        -- destruct (status_code r =? 200); [ | exact V ].
           destruct (body r) as [v | why];
             [ destruct (is_list v); [ left; exact V | ] | ];
             right; eexists; exact V.
        -- split; [ | right; reflexivity ].
           unfold carries_headers. cbn.
           rewrite (get_headers_same_login _ _ L). reflexivity.
      * intros e. split; [ reflexivity | ].
        split; [ | right; reflexivity ].
        unfold carries_headers. cbn.
        rewrite (get_headers_same_login _ _ L). reflexivity.
    + match goal with H : same_login s0 _ |- _ => rename H into L end.
      eapply triple_with_response; [ apply fallback_block_marks | | ].
      * intros r m ->. split; [ | split; [ | right; reflexivity ] ].
        -- unfold sound_report. cbn.
           destruct (Z.eqb_spec (status_code r) 200) as [E | N200]; cbn.
           { split; [ intros E0; rewrite E0 in E; discriminate | ].
             intros _. left. exact E. }
           destruct (Z.eqb_spec (status_code r) 404) as [E | N404]; cbn.
           { split; [ intros E0; rewrite E0 in E; discriminate | ].
             intros _. right. right. split; [ exact E | reflexivity ]. }
           split; [ intros _; eexists; reflexivity | discriminate ].
        -- unfold carries_headers. cbn.
           rewrite (get_headers_same_login _ _ L). reflexivity.
      * intros e. split; [ reflexivity | ].
        split; [ | right; reflexivity ].
        unfold carries_headers. cbn.
        rewrite (get_headers_same_login _ _ L). reflexivity.
Qed.

Lemma same_login_refl (s : session) : same_login s s.
Proof. repeat split. Qed.

Lemma after_tasks_login (c : user_class) (n : nat) (w : world) :
  same_login (self w) (self (after_tasks c n w)).
Proof.
  revert w. induction n as [ | k IH]; intros w; [ apply same_login_refl | ].
  cbn [after_tasks].
  destruct (task_triple c (self w) w (same_login_refl _)) as (L & _).
  destruct L as (E & P & T & U).
  destruct (IH (final (task c w))) as (E' & P' & T' & U').
  repeat split; congruence.
Qed.

(** X1. No run of a task changes the e-mail, the password, the token or the
    user id of the session: they are what [on_start] left, whatever the
    backend answers and however many tasks have run. *)
Theorem tasks_keep_login (c : user_class) (n : nat) (w : world) :
  email (self (after_tasks c n w)) = email (self w)
  /\ password (self (after_tasks c n w)) = password (self w)
  /\ token (self (after_tasks c n w)) = token (self w)
  /\ user_id (self (after_tasks c n w)) = user_id (self w).
Proof. exact (after_tasks_login c n w). Qed.

(** X2. Every request that a task sends, in whatever run of the task
    after however many others, carries the headers [get_headers] builds for
    the session as it was at the start: a token is neither picked up nor
    dropped on the way. *)
Theorem task_requests_carry_headers (c : user_class) (n : nat) (w : world)
  (ev : event) :
  In ev (emitted (task c (after_tasks c n w))) ->
  rq_headers (ev_request ev) = Some (get_headers (self w)).
Proof.
  intros H.
  destruct (task_triple c (self w) (after_tasks c n w)
              (after_tasks_login c n w)) as (_ & P & _).
  exact (proj1 (proj2 (P ev H))).
Qed.

Lemma login_report_sound (w : world) (ev : event) :
  In ev (emitted (authenticate w)) ->
  sound_report ev /\ rq_name (ev_request ev) = "Auth - Login".
Proof.
  rewrite authenticate_run.
  destruct (backend w (requests w)) as [r | e]; cbn; intros [<- | []];
    (split; [ | reflexivity ]); [ | reflexivity ].
  unfold sound_report. cbn.
  destruct (Z.eq_dec (status_code r) 200) as [E | N].
  - split; [ intros E0; rewrite E0 in E; discriminate | ].
    intros _. left. exact E.
  - destruct (login_block_other r (next_request w) N) as [msg ->]. cbn.
    split; [ intros _; exists msg; reflexivity | discriminate ].
Qed.

(** X3. A response with status 0, the client's sign that the backend could
    not be reached, is reported as a failure wherever it arrives: at the
    login and in every request of every task. *)
Theorem connection_failure_is_failure (c : user_class) (w : world)
  (ev : event) (r : response) :
  In ev (emitted (authenticate w)) \/ In ev (emitted (task c w)) ->
  ev_reply ev = Answer r ->
  status_code r = 0 ->
  exists msg, ev_mark ev = Failure msg.
Proof.
  intros H R E.
  assert (S : sound_report ev).
  { destruct H as [H | H].
    - exact (proj1 (login_report_sound w ev H)).
    - destruct (task_triple c (self w) w (same_login_refl _)) as (_ & P & _).
      exact (proj1 (P ev H)). }
  unfold sound_report in S. rewrite R in S. exact (proj1 S E).
Qed.

(** X4. A request is reported as a success only for a response with status
    200, or with status 400 when it is a transfer, or with status 404 when
    it is a transaction history; so never for 401 or a 5xx status, and at
    the login for 200 alone. *)
Theorem success_statuses (c : user_class) (w : world) (ev : event)
  (r : response) :
  In ev (emitted (authenticate w)) \/ In ev (emitted (task c w)) ->
  ev_reply ev = Answer r ->
  ev_mark ev = Success ->
  status_code r = 200
  \/ (status_code r = 400 /\ rq_name (ev_request ev) = transfer_name
      /\ c = ActiveUser)
  \/ (status_code r = 404 /\ rq_name (ev_request ev) = history_name
      /\ c = HistoryUser).
Proof.
  intros H R M. destruct H as [H | H].
  - destruct (login_report_sound w ev H) as [S N].
    unfold sound_report in S. rewrite R in S.
    destruct (proj2 S M) as [E | [[_ E] | [_ E]]];
      [ left; exact E | | ]; rewrite N in E; discriminate.
  - destruct (task_triple c (self w) w (same_login_refl _)) as (_ & P & _).
    destruct (P ev H) as (S & _ & N).
    unfold sound_report in S. rewrite R in S.
    destruct (proj2 S M) as [E | [[E T] | [E T]]]; [ left; exact E | | ].
    + right. left. split; [ exact E | ]. split; [ exact T | ].
      destruct N as [N | N]; rewrite T in N; [ discriminate | ].
      destruct c; [ discriminate | reflexivity | discriminate ].
    + right. right. split; [ exact E | ]. split; [ exact T | ].
      destruct N as [N | N]; rewrite T in N; [ discriminate | ].
      destruct c; [ discriminate | discriminate | reflexivity ].
Qed.

(** X5. A task of a class sends nothing but the fetch of the account list
    and the class's own request: a [BrowseUser] and a [HistoryUser] never
    send a transfer, and no task ever logs in again. *)
Theorem task_request_names (c : user_class) (w : world) (ev : event) :
  In ev (emitted (task c w)) ->
  rq_name (ev_request ev) = fetch_name
  \/ rq_name (ev_request ev) = task_request_name c.
Proof.
  intros H.
  destruct (task_triple c (self w) w (same_login_refl _)) as (_ & P & _).
  exact (proj2 (proj2 (P ev H))).
Qed.

(** *** How many requests *)

Lemma at_most_still (n : nat) {A} (m : M A) :
  (forall w, emitted (m w) = []) -> at_most n m.
Proof. intros H w. rewrite H. cbn. lia. Qed.

Lemma at_most_bind (a b : nat) {A B} (m : M A) (f : A -> M B) :
  at_most a m -> (forall x, at_most b (f x)) -> at_most (a + b) (bind m f).
Proof.
  intros Hm Hf w. specialize (Hm w).
  destruct (outcome (m w)) as [x | e] eqn:O.
  - rewrite (bind_ok _ _ _ _ O). cbn. rewrite length_app.
    specialize (Hf x (final (m w))). lia.
  - rewrite (bind_raise _ _ _ _ O). cbn. lia.
Qed.

Lemma at_most_with_response {A} (rq : request) (block : response -> M A) :
  (forall r w, emitted (block r w) = []) ->
  at_most 1 (with_response rq block).
Proof.
  intros H w. destruct (backend w (requests w)) as [r | e] eqn:B.
  - rewrite (with_response_answer _ _ _ _ B). cbn. rewrite H. cbn. lia.
  - rewrite (with_response_fault _ _ _ _ B). cbn. lia.
Qed.

Lemma at_most_get_user_accounts : at_most 1 get_user_accounts.
Proof.
  intros w. destruct (truthy (user_id (self w))) eqn:U.
  2:{ rewrite (get_user_accounts_no_user _ U). cbn. lia. }
  destruct (truthy (accounts (self w))) eqn:A.
  { rewrite (get_user_accounts_cached w (conj U A)). cbn. lia. }
  rewrite (get_user_accounts_fetch _ U A).
  destruct (backend w (requests w)); cbn; lia.
Qed.

(** Counts the requests of what follows the first fetch of a task. *)
Ltac count :=
  repeat first
    [ apply at_most_still; intros; reflexivity
    | apply (at_most_bind 0 1);
      [ apply at_most_still; intros;
        first [ reflexivity
              | apply still_and_len | apply still_random_choice
              | apply still_other_accounts | apply still_uniform
              | apply still_lift ]
      | intro ]
    | apply (at_most_bind 1 0);
      [ apply at_most_get_user_accounts | intro ]
    | apply at_most_with_response; intros;
      first [ apply view_account_block_marks | apply transfer_block_marks
            | apply history_block_marks | apply fallback_block_marks ]
    | match goal with
      | |- at_most _ (if ?b then _ else _) => destruct b
      end ].

Lemma at_most_task (c : user_class) : at_most 2 (task c).
Proof.
  destruct c; cbn [task].
  - unfold browse_accounts.
    apply (at_most_bind 1 1); [ apply at_most_get_user_accounts | intro ].
    count.
  - unfold view_and_transfer.
    apply (at_most_bind 1 1); [ apply at_most_get_user_accounts | intro ].
    count.
  - unfold view_transaction_history.
    apply (at_most_bind 1 1); [ apply at_most_get_user_accounts | intro ].
    count.
Qed.

(** X6. One run of a task sends at most two requests, one call of
    [get_user_accounts] at most one, and [authenticate] and [on_start]
    exactly one each, the login, whatever the backend answers: nothing is
    retried. *)
Theorem request_budget (c : user_class) (w : world) :
  (List.length (emitted (task c w)) <= 2)%nat
  /\ (List.length (emitted (get_user_accounts w)) <= 1)%nat
  /\ List.length (emitted (authenticate w)) = 1%nat
  /\ List.length (emitted (on_start w)) = 1%nat.
Proof.
  split; [ apply at_most_task | ].
  split; [ apply at_most_get_user_accounts | ].
  assert (A : forall w', List.length (emitted (authenticate w')) = 1%nat).
  { intros w'. rewrite authenticate_run.
    destruct (backend w' (requests w')); reflexivity. }
  split; [ apply A | ].
  destruct (on_start_run w) as (e & p & ->). apply A.
Qed.

(** *** More on the login *)

Lemma login_fields (r : response) (jwt uid : json) :
  body_field r "jwtToken" = Some jwt ->
  body_user_id r = Some uid ->
  exists d ud,
    body r = Decodes (JObj d)
    /\ dict_get d "jwtToken" = Some jwt
    /\ dict_get d "user" = Some (JObj ud)
    /\ dict_get ud "userId" = Some uid.
Proof.
  unfold body_user_id, body_field.
  destruct (body r) as [v | why]; [ | discriminate ].
  destruct v as [ | b | n | s | l | d ]; try discriminate. cbn.
  intros J. destruct (dict_get d "user") as [u | ] eqn:Du; [ | discriminate ].
  destruct u as [ | b | n | s | l | ud ]; try discriminate. cbn.
  intros U. exists d, ud. repeat split; (reflexivity || assumption).
Qed.

(** X7. [authenticate] reports the login as a success exactly when the
    response has status 200 and its JSON body holds a truthy [jwtToken] and
    a truthy [user.userId]; these two are then the token and the user id of
    the session. *)
Theorem login_success (w : world) :
  (List.map ev_mark (emitted (authenticate w)) = [Success]
   <-> exists r jwt uid,
         backend w (requests w) = Answer r
         /\ status_code r = 200
         /\ body_field r "jwtToken" = Some jwt
         /\ body_user_id r = Some uid
         /\ truthy jwt = true /\ truthy uid = true)
  /\ (forall r jwt uid,
        backend w (requests w) = Answer r ->
        status_code r = 200 ->
        body_field r "jwtToken" = Some jwt ->
        body_user_id r = Some uid ->
        token (self (final (authenticate w))) = jwt
        /\ user_id (self (final (authenticate w))) = uid).
Proof.
  rewrite authenticate_run. split.
  - split.
    + destruct (backend w (requests w)) as [r | e]; cbn; [ | discriminate ].
      destruct (Z.eq_dec (status_code r) 200) as [E | N].
      2:{ destruct (login_block_other r (next_request w) N) as [msg ->].
          cbn. discriminate. }
      rewrite (login_block_200 _ _ E). cbn. intros H.
      exists r. unfold body_user_id, body_field.
      destruct (body r) as [v | why]; [ | discriminate ].
      destruct v as [ | b | n | s | l | d ]; try discriminate. cbn in H |- *.
      destruct (dict_get d "user") as [u | ]; cbn in H |- *.
      * destruct u as [ | b | n | s | l | ud ]; try discriminate.
        cbn in H |- *.
        destruct (dict_get d "jwtToken") as [jwt | ]; cbn in H;
          [ | discriminate ].
        destruct (dict_get ud "userId") as [uid | ]; cbn in H;
          [ | rewrite andb_false_r in H; discriminate ].
        exists jwt, uid.
        destruct (truthy jwt); [ | discriminate ].
        destruct (truthy uid); [ | discriminate ].
        repeat split. exact E.
      * rewrite andb_false_r in H. discriminate.
    + intros (r & jwt & uid & B & E & J & U & Tj & Tu). rewrite B. cbn.
      rewrite (login_block_200 _ _ E).
      destruct (login_fields r jwt uid J U) as (d & ud & -> & Dj & Du & Di).
      cbn. rewrite Dj, Du. cbn. rewrite Di. cbn. rewrite Tj, Tu. reflexivity.
  - intros r jwt uid B E J U. rewrite B. cbn.
    rewrite (login_block_200 _ _ E).
    destruct (login_fields r jwt uid J U) as (d & ud & -> & Dj & Du & Di).
    cbn. rewrite Dj, Du. cbn. rewrite Di. cbn. split; reflexivity.
Qed.

(** X8. When the login request raises, or is answered with a status other
    than 200, or with a 200 body that is not JSON or not an object,
    [authenticate] leaves the whole session object as it was; an answer is
    then reported as a failure. *)
Theorem rejected_login_keeps_session (w : world) :
  match backend w (requests w) with
  | Fault _ => True
  | Answer r =>
      status_code r <> 200 \/ (forall d, body r <> Decodes (JObj d))
  end ->
  self (final (authenticate w)) = self w
  /\ match backend w (requests w) with
     | Fault _ => List.map ev_mark (emitted (authenticate w)) = [Unmarked]
     | Answer _ =>
         exists msg,
           List.map ev_mark (emitted (authenticate w)) = [Failure msg]
     end.
Proof.
  rewrite authenticate_run.
  destruct (backend w (requests w)) as [r | e]; cbn;
    [ | intros _; split; reflexivity ].
  destruct (Z.eq_dec (status_code r) 200) as [E | N].
  - intros [N | D]; [ contradiction | ].
    rewrite (login_block_200 _ _ E). cbn.
    destruct (body r) as [v | why];
      [ | split; [ reflexivity | eexists; reflexivity ] ].
    destruct v as [ | b | n | s | l | d ];
      try (split; [ reflexivity | eexists; reflexivity ]).
    contradiction (D d). reflexivity.
  - intros _. destruct (login_block_other r (next_request w) N) as [msg ->].
    cbn. split; [ reflexivity | exists msg; reflexivity ].
Qed.

(** *** The start of a session *)

Lemma choice_of_listed_credentials (w : world) :
  exists e,
    In e ["user1@example.com"; "user2@example.com"; "user3@example.com";
          "admin@example.com"]
    /\ random_choice TEST_CREDENTIALS w
       = Run (Ok (JObj [("email", JStr e); ("password", JStr "password123")]))
           (next_draw w) [].
Proof.
  unfold random_choice. rewrite bind_lift. cbn [TEST_CREDENTIALS py_len].
  match goal with
  | |- context [Nat.eqb ?n 0] => change (Nat.eqb n 0) with false
  end.
  cbv iota. unfold bind, randbelow.
  match goal with
  | |- context [Z.of_nat ?n] => change (Z.of_nat n) with 4
  end.
  pose proof (Z.mod_pos_bound (entropy w (draws w)) 4 eq_refl) as [L H].
  destruct (entropy w (draws w) mod 4) as [ | q | q ]; [ | | lia ].
  - eexists. split; [ | reflexivity ]. cbn. tauto.
  - destruct q as [ q | q | ]; try destruct q; try lia;
      (eexists; split; [ | reflexivity ]); cbn; tauto.
Qed.

Lemma authenticate_keeps_rest (w : world) :
  email (self (final (authenticate w))) = email (self w)
  /\ password (self (final (authenticate w))) = password (self w)
  /\ accounts (self (final (authenticate w))) = accounts (self w).
Proof.
  rewrite authenticate_run.
  destruct (backend w (requests w)) as [r | e]; cbn; [ | repeat split ].
  destruct (Z.eq_dec (status_code r) 200) as [E | N].
  - rewrite (login_block_200 _ _ E). cbn.
    destruct (body r) as [v | why]; [ | repeat split ].
    destruct v as [ | b | n | s | l | d ]; try solve [ repeat split ]. cbn.
    destruct (from_option (dict_get d "user") (JObj []));
      repeat split.
  - destruct (login_block_other r (next_request w) N) as [msg ->].
    repeat split.
Qed.

(** X9. [on_start] never raises. It sends one request, the login, without
    headers, with one of the four listed e-mails and the password
    [password123], which it stores; whatever the session object held
    before, it ends with an empty account cache. *)
Theorem on_start_logs_in (w : world) :
  outcome (on_start w) = Ok tt
  /\ accounts (self (final (on_start w))) = JArr []
  /\ exists e,
       In e ["user1@example.com"; "user2@example.com"; "user3@example.com";
             "admin@example.com"]
       /\ email (self (final (on_start w))) = JStr e
       /\ password (self (final (on_start w))) = JStr "password123"
       /\ List.map ev_request (emitted (on_start w))
          = [Request POST "/api/v1/login"
               (Some (LoginData (JStr e) (JStr "password123"))) None
               "Auth - Login"]
       /\ List.map ev_reply (emitted (on_start w))
          = [backend w (requests w)].
Proof.
  unfold on_start.
  rewrite (bind_silent _ _ _ _ _ eq_refl).
  rewrite (bind_silent _ _ _ _ _ eq_refl).
  rewrite (bind_silent _ _ _ _ _ eq_refl).
  set (w0 := with_self _ (with_self _ (with_self _ w))).
  destruct (choice_of_listed_credentials w0) as (e & Ie & C).
  rewrite (bind_silent _ _ _ _ _ C).
  rewrite (bind_silent _ _ _ _ _ eq_refl).
  rewrite (bind_silent _ _ _ _ _ eq_refl).
  rewrite (bind_silent _ _ _ _ _ eq_refl).
  rewrite (bind_silent _ _ _ _ _ eq_refl).
  match goal with
  | |- context [authenticate ?x] => set (w1 := x)
  end.
  destruct (authenticate_keeps_rest w1) as (E & P & A).
  split; [ rewrite authenticate_run; destruct (backend w1 (requests w1));
           reflexivity | ].
  split; [ rewrite A; reflexivity | ].
  exists e. split; [ exact Ie | ].
  split; [ rewrite E; reflexivity | ]. split; [ rewrite P; reflexivity | ].
  rewrite authenticate_run.
  change (backend w1 (requests w1)) with (backend w (requests w)).
  destruct (backend w (requests w)); split; reflexivity.
Qed.

(** *** More on the account cache *)




(** X11. When the fetch is answered with status 200 and a JSON body that
    has a length (a list, but also an object or a string),
    [get_user_accounts] stores the decoded body as the account cache,
    reports a success and returns it. *)
Theorem fetched_accounts_are_stored (w : world) (r : response) (v : json)
  (n : nat) :
  truthy (user_id (self w)) = true ->
  truthy (accounts (self w)) = false ->
  backend w (requests w) = Answer r ->
  status_code r = 200 ->
  body r = Decodes v ->
  py_len v = Ok n ->
  outcome (get_user_accounts w) = Ok v
  /\ accounts (self (final (get_user_accounts w))) = v
  /\ List.map ev_mark (emitted (get_user_accounts w)) = [Success].
Proof.
  intros U A B E D L. rewrite (get_user_accounts_fetch _ U A), B. cbn.
  rewrite (accounts_block_200 _ _ E), D, L. repeat split.
Qed.

(** X12. An empty account list is not remembered: after the backend has
    answered the fetch with status 200 and an empty list, the next call of
    [get_user_accounts] sends the request again. *)
Theorem empty_list_is_fetched_again (w : world) (r : response) :
  truthy (user_id (self w)) = true ->
  truthy (accounts (self w)) = false ->
  backend w (requests w) = Answer r ->
  status_code r = 200 ->
  body r = Decodes (JArr []) ->
  outcome (get_user_accounts w) = Ok (JArr [])
  /\ List.map ev_request
       (emitted (get_user_accounts (final (get_user_accounts w))))
     = List.map ev_request (emitted (get_user_accounts w))
  /\ List.length (emitted (get_user_accounts (final (get_user_accounts w))))
     = 1%nat.
Proof.
  intros U A B E D.
  assert (R : get_user_accounts w
              = Run (Ok (JArr []))
                  (with_mark Success
                     (final (set_accounts (JArr []) (next_request w))))
                  [Event (accounts_request (self w)) (Answer r) Success]).
  { rewrite (get_user_accounts_fetch _ U A), B. cbn.
    rewrite (accounts_block_200 _ _ E), D. reflexivity. }
  rewrite R. cbn [outcome final emitted].
  split; [ reflexivity | ].
  set (w1 := with_mark Success _).
  assert (U1 : truthy (user_id (self w1)) = true) by exact U.
  assert (A1 : truthy (accounts (self w1)) = false) by reflexivity.
  rewrite (get_user_accounts_fetch _ U1 A1).
  destruct (backend w1 (requests w1)); split; reflexivity.
Qed.

(** X13. When the fetch is answered with status 200 and a JSON body that
    has no length (a number, a boolean or null), [get_user_accounts]
    returns the empty list and marks the request neither a success nor a
    failure, yet keeps the decoded value as the account cache; a truthy one
    is what every later call returns, without a request. *)
Theorem unsized_body_is_cached (w : world) (r : response) (v : json)
  (e : exn) :
  truthy (user_id (self w)) = true ->
  truthy (accounts (self w)) = false ->
  backend w (requests w) = Answer r ->
  status_code r = 200 ->
  body r = Decodes v ->
  py_len v = Raise e ->
  outcome (get_user_accounts w) = Ok (JArr [])
  /\ List.map ev_mark (emitted (get_user_accounts w)) = [Unmarked]
  /\ accounts (self (final (get_user_accounts w))) = v
  /\ (truthy v = true ->
      get_user_accounts (final (get_user_accounts w))
      = Run (Ok v) (final (get_user_accounts w)) []).
Proof.
  intros U A B E D L.
  assert (R : get_user_accounts w
              = Run (Ok (JArr []))
                  (final (set_accounts v (next_request w)))
                  [Event (accounts_request (self w)) (Answer r) Unmarked]).
  { rewrite (get_user_accounts_fetch _ U A), B. cbn.
    rewrite (accounts_block_200 _ _ E), D, L. reflexivity. }
  rewrite R. cbn [outcome final emitted].
  split; [ reflexivity | ]. split; [ reflexivity | ].
  split; [ reflexivity | ].
  intros T. rewrite get_user_accounts_cached; [ reflexivity | ].
  split; [ exact U | exact T ].
Qed.

(** *** Tasks without a user, and without accounts *)

(** X14. In a session without a user id, as a failed login leaves it, a
    task of a [BrowseUser] or an [ActiveUser] returns at once: it sends no
    request and changes nothing. *)
Theorem tasks_without_user_send_nothing (c : user_class) (w : world) :
  truthy (user_id (self w)) = false ->
  c <> HistoryUser ->
  task c w = Run (Ok tt) w [].
Proof.
  intros U N.
  pose proof (get_user_accounts_no_user _ U) as G.
  destruct c; [ | | contradiction N; reflexivity ]; cbn [task].
  - unfold browse_accounts.
    rewrite (bind_silent _ _ _ _ _ G).
    rewrite (bind_silent _ _ _ _ _ (and_len_falsy (JArr []) _ _ eq_refl)).
    rewrite (bind_silent _ _ _ _ _ G). reflexivity.
  - unfold view_and_transfer.
    rewrite (bind_silent _ _ _ _ _ G).
    rewrite (bind_silent _ _ _ _ _ (and_len_falsy (JArr []) _ _ eq_refl)).
    rewrite (bind_silent _ _ _ _ _ G). reflexivity.
Qed.

Lemma bind_run {A B} (m : M A) (f : A -> M B) (w : world) (a : A) :
  outcome (m w) = Ok a ->
  outcome (bind m f w) = outcome (f a (final (m w)))
  /\ final (bind m f w) = final (f a (final (m w)))
  /\ emitted (bind m f w)
     = (emitted (m w) ++ emitted (f a (final (m w))))%list.
Proof. intros O. rewrite (bind_ok _ _ _ _ O). repeat split. Qed.

(** Without accounts, the second branch of the task is a second call of
    [get_user_accounts]. *)
Lemma empty_accounts_twice (c : user_class) (w : world) (v : json) :
  outcome (get_user_accounts w) = Ok v ->
  truthy v = false ->
  c <> HistoryUser ->
  outcome (task c w) = Ok tt
  /\ emitted (task c w)
     = (emitted (get_user_accounts w)
        ++ emitted (get_user_accounts (final (get_user_accounts w))))%list.
Proof.
  intros O T N.
  set (w1 := final (get_user_accounts w)).
  destruct (get_user_accounts_total w1) as (v1 & O1 & _).
  destruct c; [ | | contradiction N; reflexivity ]; cbn [task].
  - unfold browse_accounts.
    match goal with
    | |- context [bind get_user_accounts ?f w] =>
        destruct (bind_run get_user_accounts f w v O) as (Ro & _ & Re)
    end.
    rewrite Ro, Re. fold w1.
    rewrite !(bind_silent _ _ _ _ _ (and_len_falsy _ _ _ T)).
    destruct (bind_run get_user_accounts (fun _ => ret tt) w1 v1 O1)
      as (Ro1 & _ & Re1).
    rewrite Ro1, Re1. cbn. rewrite app_nil_r. split; reflexivity.
  - unfold view_and_transfer.
    match goal with
    | |- context [bind get_user_accounts ?f w] =>
        destruct (bind_run get_user_accounts f w v O) as (Ro & _ & Re)
    end.
    rewrite Ro, Re. fold w1.
    rewrite !(bind_silent _ _ _ _ _ (and_len_falsy _ _ _ T)).
    destruct (bind_run get_user_accounts (fun _ => ret tt) w1 v1 O1)
      as (Ro1 & _ & Re1).
    rewrite Ro1, Re1. cbn. rewrite app_nil_r. split; reflexivity.
Qed.

(** *** The request for one account *)






(** X15. When the account list it gets is empty, a task of a [BrowseUser]
    or an [ActiveUser] calls [get_user_accounts] a second time and does
    nothing else: with an empty cache, one run of the task fetches the list
    twice. *)
Theorem empty_accounts_fetch_twice (c : user_class) (w : world) (v : json) :
  outcome (get_user_accounts w) = Ok v ->
  truthy v = false ->
  c <> HistoryUser ->
  outcome (task c w) = Ok tt
  /\ emitted (task c w)
     = (emitted (get_user_accounts w)
        ++ emitted (get_user_accounts (final (get_user_accounts w))))%list.
Proof. apply empty_accounts_twice. Qed.

(** *** Account lists that make a task raise *)

Lemma and_len_list (l : list json) (test : nat -> bool) (w : world) :
  l <> [] ->
  and_len (JArr l) test w = Run (Ok (test (List.length l))) w [].
Proof.
  intros N. unfold and_len. destruct l as [ | x r]; [ contradiction | ].
  cbn [truthy]. rewrite bind_lift. reflexivity.
Qed.

Lemma random_choice_nonempty (l : list json) (w : world) :
  l <> [] ->
  exists x,
    In x l /\ random_choice (JArr l) w = Run (Ok x) (next_draw w) [].
Proof.
  intros N. unfold random_choice. rewrite bind_lift. cbn [py_len].
  destruct (Nat.eqb_spec (List.length l) 0) as [E | E].
  { destruct l; [ contradiction | discriminate ]. }
  unfold bind, randbelow.
  set (i := Z.to_nat (entropy w (draws w) mod Z.of_nat (List.length l))).
  assert (B : (i < List.length l)%nat).
  { unfold i.
    pose proof (Z.mod_pos_bound (entropy w (draws w))
                  (Z.of_nat (List.length l)) ltac:(lia)).
    lia. }
  rewrite lift_run. cbn [py_item].
  destruct (nth_error l i) as [x | ] eqn:X.
  - exists x. split; [ eapply nth_error_In; exact X | reflexivity ].
  - apply nth_error_None in X. lia.
Qed.

Lemma filterM_none (keep : json -> M bool) (l : list json) (w : world) :
  (forall y, In y l -> keep y w = Run (Ok false) w []) ->
  filterM keep l w = Run (Ok []) w [].
Proof.
  induction l as [ | y r IH]; intros H; [ reflexivity | ].
  cbn [filterM].
  rewrite (bind_silent _ _ _ _ _ (H y (or_introl eq_refl))).
  rewrite (bind_silent _ _ _ _ _ (IH (fun z I => H z (or_intror I)))).
  reflexivity.
Qed.

(** X18. When the fetched list has two entries or more and all of them
    have the same [accountno] (in particular when none has one, so that
    all are [None]), [view_and_transfer] sends no transfer: choosing the
    destination among no account raises [IndexError], which the task does
    not catch. *)
Theorem transfer_needs_distinct_numbers (w : world) (l : list json)
  (a : json) :
  outcome (get_user_accounts w) = Ok (JArr l) ->
  (2 <= List.length l)%nat ->
  (forall x, In x l -> py_get x "accountno" = Ok a) ->
  py_eq a a = true ->
  outcome (view_and_transfer w)
  = Raise (Exn IndexError "Cannot choose from an empty sequence")
  /\ emitted (view_and_transfer w) = emitted (get_user_accounts w).
Proof.
  intros O L Same Refl.
  assert (Nl : l <> []) by (destruct l; [ cbn in L; lia | discriminate ]).
  unfold view_and_transfer.
  match goal with
  | |- context [bind get_user_accounts ?f w] =>
      destruct (bind_run get_user_accounts f w _ O) as (Ro & _ & Re)
  end.
  rewrite Ro, Re. clear Ro Re.
  set (w1 := final (get_user_accounts w)).
  rewrite !(bind_silent _ _ _ _ _ (and_len_list l _ w1 Nl)).
  destruct (Nat.leb_spec 2 (List.length l)) as [_ | C]; [ | lia ].
  destruct (random_choice_nonempty l w1 Nl) as (x & Ix & Rx).
  rewrite !(bind_silent _ _ _ _ _ Rx).
  assert (Ro : other_accounts (JArr l) x (next_draw w1)
               = Run (Ok (JArr [])) (next_draw w1) []).
  { unfold other_accounts. rewrite bind_lift. cbn [py_iter].
    erewrite bind_silent; [ reflexivity | ].
    apply filterM_none. intros y Iy. rewrite differs_run.
    rewrite (Same y Iy), (Same x Ix). unfold py_ne. rewrite Refl.
    reflexivity. }
  rewrite !(bind_silent _ _ _ _ _ Ro).
  cbn. rewrite app_nil_r. split; reflexivity.
Qed.

Lemma bind_fails {A B} (m : M A) (f : A -> M B) (w w1 : world) (e : exn)
  (evs : list event) :
  m w = Run (Raise e) w1 evs -> bind m f w = Run (Raise e) w1 evs.
Proof. unfold bind. intros ->. reflexivity. Qed.

Lemma get_of_non_object (x : json) (k : string) :
  (forall d, x <> JObj d) ->
  py_get x k
  = Raise (Exn AttributeError
             ("'" ++ type_name x ++ "' object has no attribute 'get'")).
Proof.
  intros N. destruct x; try reflexivity. contradiction (N fields).
  reflexivity.
Qed.

(** X19. When the fetched list is not empty and none of its entries is a
    JSON object, the task raises [AttributeError] when it reads the
    [accountno] of an entry, and sends nothing after the fetch (an
    [ActiveUser] needs two entries to get there). *)
Theorem entries_must_be_objects (c : user_class) (w : world)
  (l : list json) :
  outcome (get_user_accounts w) = Ok (JArr l) ->
  (1 <= List.length l)%nat ->
  (c = ActiveUser -> (2 <= List.length l)%nat) ->
  (forall x, In x l -> forall d, x <> JObj d) ->
  (exists msg, outcome (task c w) = Raise (Exn AttributeError msg))
  /\ emitted (task c w) = emitted (get_user_accounts w).
Proof.
  intros O L1 L2 Non.
  assert (Nl : l <> []) by (destruct l; [ cbn in L1; lia | discriminate ]).
  set (w1 := final (get_user_accounts w)).
  destruct (random_choice_nonempty l w1 Nl) as (x & Ix & Rx).
  assert (Pick : forall (k : json -> M unit),
             (account <- random_choice (JArr l) ;;
              account_no <- lift (py_get account "accountno") ;;
              k account_no) w1
             = Run (Raise (Exn AttributeError
                             ("'" ++ type_name x
                              ++ "' object has no attribute 'get'")))
                 (next_draw w1) []).
  { intros k. rewrite (bind_silent _ _ _ _ _ Rx), bind_lift.
    rewrite (get_of_non_object x _ (Non x Ix)). reflexivity. }
  destruct c; cbn [task].
  - unfold browse_accounts.
    match goal with
    | |- context [bind get_user_accounts ?f w] =>
        destruct (bind_run get_user_accounts f w _ O) as (Ro & _ & Re)
    end.
    rewrite Ro, Re. clear Ro Re. fold w1.
    rewrite !(bind_silent _ _ _ _ _ (and_len_list l _ w1 Nl)).
    destruct (Nat.ltb_spec 0 (List.length l)) as [_ | C]; [ | lia ].
    rewrite Pick. cbn. rewrite app_nil_r.
    split; [ eexists; reflexivity | reflexivity ].
  - specialize (L2 eq_refl). unfold view_and_transfer.
    match goal with
    | |- context [bind get_user_accounts ?f w] =>
        destruct (bind_run get_user_accounts f w _ O) as (Ro & _ & Re)
    end.
    rewrite Ro, Re. clear Ro Re. fold w1.
    rewrite !(bind_silent _ _ _ _ _ (and_len_list l _ w1 Nl)).
    destruct (Nat.leb_spec 2 (List.length l)) as [_ | C]; [ | lia ].
    rewrite !(bind_silent _ _ _ _ _ Rx).
    destruct l as [ | y r]; [ contradiction Nl; reflexivity | ].
    assert (Ry : exists msg,
               other_accounts (JArr (y :: r)) x (next_draw w1)
               = Run (Raise (Exn AttributeError msg)) (next_draw w1) []).
    { unfold other_accounts. rewrite bind_lift. cbn [py_iter filterM].
      eexists. apply bind_fails. apply bind_fails. rewrite differs_run.
      rewrite (get_of_non_object y _ (Non y (or_introl eq_refl))).
      reflexivity. }
    destruct Ry as (msg & Ry).
    rewrite (bind_fails _ _ _ _ _ _ Ry).
    cbn. rewrite app_nil_r.
    split; [ eexists; reflexivity | reflexivity ].
  - unfold view_transaction_history.
    match goal with
    | |- context [bind get_user_accounts ?f w] =>
        destruct (bind_run get_user_accounts f w _ O) as (Ro & _ & Re)
    end.
    rewrite Ro, Re. clear Ro Re. fold w1.
    rewrite !(bind_silent _ _ _ _ _ (and_len_list l _ w1 Nl)).
    destruct (Nat.ltb_spec 0 (List.length l)) as [_ | C]; [ | lia ].
    rewrite Pick. cbn. rewrite app_nil_r.
    split; [ eexists; reflexivity | reflexivity ].
Qed.

(** *** From the login to the tasks *)




(** *** More properties at sample sessions *)

Lemma task_requests_carry_headers_witness :
  In (sample_transfer no_status Success)
    (emitted (task ActiveUser
                (after_tasks ActiveUser 1
                   (world_of two_accounts (always no_status)))))
  /\ rq_headers (ev_request (sample_transfer no_status Success))
     = Some (get_headers two_accounts).
Proof.
  assert (I : In (sample_transfer no_status Success)
                (emitted (task ActiveUser
                            (after_tasks ActiveUser 1
                               (world_of two_accounts (always no_status)))))).
  { left. reflexivity. }
  split; [ exact I | ].
  exact (task_requests_carry_headers ActiveUser 1
           (world_of two_accounts (always no_status)) _ I).
Defined.

Lemma connection_failure_is_failure_witness :
  In (sample_transfer unreachable (Failure "Connection failed"))
    (emitted (task ActiveUser (world_of two_accounts (always unreachable))))
  /\ status_code unreachable = 0
  /\ exists msg,
       ev_mark (sample_transfer unreachable (Failure "Connection failed"))
       = Failure msg.
Proof.
  assert (I : In (sample_transfer unreachable (Failure "Connection failed"))
                (emitted (task ActiveUser
                            (world_of two_accounts (always unreachable))))).
  { left. reflexivity. }
  split; [ exact I | ]. split; [ reflexivity | ].
  exact (connection_failure_is_failure ActiveUser
           (world_of two_accounts (always unreachable)) _ unreachable
           (or_intror I) eq_refl eq_refl).
Defined.

Lemma success_statuses_witness :
  In (sample_transfer invalid_balance Success)
    (emitted (task ActiveUser
                (world_of two_accounts (always invalid_balance))))
  /\ (status_code invalid_balance = 200
      \/ (status_code invalid_balance = 400
          /\ rq_name (ev_request (sample_transfer invalid_balance Success))
             = transfer_name
          /\ ActiveUser = ActiveUser)
      \/ (status_code invalid_balance = 404
          /\ rq_name (ev_request (sample_transfer invalid_balance Success))
             = history_name
          /\ ActiveUser = HistoryUser)).
Proof.
  assert (I : In (sample_transfer invalid_balance Success)
                (emitted (task ActiveUser
                            (world_of two_accounts
                               (always invalid_balance))))).
  { left. reflexivity. }
  split; [ exact I | ].
  exact (success_statuses ActiveUser
           (world_of two_accounts (always invalid_balance)) _
           invalid_balance (or_intror I) eq_refl eq_refl).
Defined.

Lemma task_request_names_witness :
  In (sample_view no_status Success)
    (emitted (task BrowseUser (world_of two_accounts (always no_status))))
  /\ (rq_name (ev_request (sample_view no_status Success)) = fetch_name
      \/ rq_name (ev_request (sample_view no_status Success))
         = task_request_name BrowseUser).
Proof.
  assert (I : In (sample_view no_status Success)
                (emitted (task BrowseUser
                            (world_of two_accounts (always no_status))))).
  { left. reflexivity. }
  split; [ exact I | ].
  exact (task_request_names BrowseUser
           (world_of two_accounts (always no_status)) _ I).
Defined.

Lemma login_success_witness :
  (backend (world_of fresh_session (always full_login))
     (requests (world_of fresh_session (always full_login)))
   = Answer full_login
   /\ status_code full_login = 200
   /\ body_field full_login "jwtToken" = Some (JStr "abc")
   /\ body_user_id full_login = Some (JInt 7))
  /\ List.map ev_mark
       (emitted (authenticate (world_of fresh_session (always full_login))))
     = [Success]
  /\ token (self (final (authenticate
                           (world_of fresh_session (always full_login)))))
     = JStr "abc"
  /\ user_id (self (final (authenticate
                             (world_of fresh_session (always full_login)))))
     = JInt 7.
Proof.
  split; [ repeat split | ].
  split.
  - apply (proj2 (proj1 (login_success
                           (world_of fresh_session (always full_login))))).
    exists full_login, (JStr "abc"), (JInt 7). repeat split.
  - exact (proj2 (login_success (world_of fresh_session (always full_login)))
             full_login (JStr "abc") (JInt 7) eq_refl eq_refl eq_refl
             eq_refl).
Defined.

Lemma rejected_login_keeps_session_witness :
  status_code unreachable <> 200
  /\ self (final (authenticate (world_of two_accounts (always unreachable))))
     = two_accounts
  /\ exists msg,
       List.map ev_mark
         (emitted (authenticate (world_of two_accounts (always unreachable))))
       = [Failure msg].
Proof.
  assert (N : status_code unreachable <> 200) by discriminate.
  split; [ exact N | ].
  exact (rejected_login_keeps_session
           (world_of two_accounts (always unreachable)) (or_introl N)).
Defined.

Lemma fetched_accounts_are_stored_witness :
  truthy (user_id (self (world_of no_accounts (always account_list)))) = true
  /\ truthy (accounts (self (world_of no_accounts (always account_list))))
     = false
  /\ py_len (JArr [account 11; account 12]) = Ok 2%nat
  /\ outcome (get_user_accounts (world_of no_accounts (always account_list)))
     = Ok (JArr [account 11; account 12])
  /\ accounts (self (final (get_user_accounts
                              (world_of no_accounts (always account_list)))))
     = JArr [account 11; account 12]
  /\ List.map ev_mark
       (emitted (get_user_accounts
                   (world_of no_accounts (always account_list))))
     = [Success].
Proof.
  split; [ reflexivity | ]. split; [ reflexivity | ].
  split; [ reflexivity | ].
  exact (fetched_accounts_are_stored
           (world_of no_accounts (always account_list)) account_list
           (JArr [account 11; account 12]) 2%nat eq_refl eq_refl eq_refl
           eq_refl eq_refl eq_refl).
Defined.

Lemma empty_list_is_fetched_again_witness :
  body empty_list = Decodes (JArr [])
  /\ outcome (get_user_accounts (world_of no_accounts (always empty_list)))
     = Ok (JArr [])
  /\ List.map ev_request
       (emitted (get_user_accounts
                   (final (get_user_accounts
                             (world_of no_accounts (always empty_list))))))
     = List.map ev_request
         (emitted (get_user_accounts
                     (world_of no_accounts (always empty_list))))
  /\ List.length
       (emitted (get_user_accounts
                   (final (get_user_accounts
                             (world_of no_accounts (always empty_list))))))
     = 1%nat.
Proof.
  split; [ reflexivity | ].
  exact (empty_list_is_fetched_again
           (world_of no_accounts (always empty_list)) empty_list
           eq_refl eq_refl eq_refl eq_refl eq_refl).
Defined.

Lemma unsized_body_is_cached_witness :
  py_len (JInt 5) = Raise (Exn TypeError "object of type 'int' has no len()")
  /\ truthy (JInt 5) = true
  /\ outcome (get_user_accounts (world_of no_accounts (always number_body)))
     = Ok (JArr [])
  /\ accounts (self (final (get_user_accounts
                              (world_of no_accounts (always number_body)))))
     = JInt 5
  /\ get_user_accounts
       (final (get_user_accounts
                 (world_of no_accounts (always number_body))))
     = Run (Ok (JInt 5))
         (final (get_user_accounts
                   (world_of no_accounts (always number_body)))) [].
Proof.
  pose proof (unsized_body_is_cached
                (world_of no_accounts (always number_body)) number_body
                (JInt 5) (Exn TypeError "object of type 'int' has no len()")
                eq_refl eq_refl eq_refl eq_refl eq_refl eq_refl)
    as (O & _ & A & C).
  split; [ reflexivity | ]. split; [ reflexivity | ].
  split; [ exact O | ]. split; [ exact A | ]. exact (C eq_refl).
Defined.

Lemma tasks_without_user_send_nothing_witness :
  truthy (user_id (self (world_of fresh_session (always no_status)))) = false
  /\ BrowseUser <> HistoryUser
  /\ task BrowseUser (world_of fresh_session (always no_status))
     = Run (Ok tt) (world_of fresh_session (always no_status)) [].
Proof.
  assert (N : BrowseUser <> HistoryUser) by discriminate.
  split; [ reflexivity | ]. split; [ exact N | ].
  exact (tasks_without_user_send_nothing BrowseUser
           (world_of fresh_session (always no_status)) eq_refl N).
Defined.

Lemma empty_accounts_fetch_twice_witness :
  outcome (get_user_accounts (world_of no_accounts (always empty_list)))
  = Ok (JArr [])
  /\ List.length
       (emitted (task BrowseUser (world_of no_accounts (always empty_list))))
     = 2%nat.
Proof.
  assert (N : BrowseUser <> HistoryUser) by discriminate.
  split; [ reflexivity | ].
  rewrite (proj2 (empty_accounts_fetch_twice BrowseUser
                    (world_of no_accounts (always empty_list)) (JArr [])
                    eq_refl eq_refl N)).
  reflexivity.
Defined.



Lemma transfer_needs_distinct_numbers_witness :
  outcome (get_user_accounts (world_of same_numbers (always no_status)))
  = Ok (JArr [account 11; account 11])
  /\ py_eq (JInt 11) (JInt 11) = true
  /\ outcome (view_and_transfer (world_of same_numbers (always no_status)))
     = Raise (Exn IndexError "Cannot choose from an empty sequence")
  /\ emitted (view_and_transfer (world_of same_numbers (always no_status)))
     = emitted (get_user_accounts
                  (world_of same_numbers (always no_status))).
Proof.
  split; [ reflexivity | ]. split; [ reflexivity | ].
  apply (transfer_needs_distinct_numbers
           (world_of same_numbers (always no_status))
           [account 11; account 11] (JInt 11) eq_refl).
  - apply le_n.
  - intros x [<- | [<- | []]]; reflexivity.
  - reflexivity.
Defined.

Lemma entries_must_be_objects_witness :
  outcome (get_user_accounts (world_of bare_numbers (always no_status)))
  = Ok (JArr [JInt 11; JInt 12])
  /\ (exists msg,
        outcome (task ActiveUser (world_of bare_numbers (always no_status)))
        = Raise (Exn AttributeError msg))
  /\ emitted (task ActiveUser (world_of bare_numbers (always no_status)))
     = emitted (get_user_accounts
                  (world_of bare_numbers (always no_status))).
Proof.
  split; [ reflexivity | ].
  apply (entries_must_be_objects ActiveUser
           (world_of bare_numbers (always no_status)) [JInt 11; JInt 12]
           eq_refl).
  - apply le_S, le_n.
  - intros _. apply le_n.
  - intros x [<- | [<- | []]] d; discriminate.
Defined.

